(** * Health-check probe of the rolling restart (pkg/healthchecker)

    A shallow embedding of [healthchecker.go]: the metric parser
    [extractMetric], the per-pod check [checkUnderReplicatedMetric], the
    fleet sweep [checkUnderReplicatedMetricAllPods], the retrying poller
    [waitUntilUnderReplicatedMetricIsZero] and the entry point [Probe].

    Go strings are byte strings ([string]); [int32] values and
    [time.Duration] (nanoseconds) are integers ([Z]); a Go [error] value is an
    [option error], [None] being [nil]; a [float64] is a [spec_float] of the
    binary64 format.  Logging calls have no effect on the results and are
    left out. *)

From Stdlib Require Import ZArith NArith List String Ascii Bool Lia.
From Stdlib Require Import DecimalString.
From Stdlib Require DecimalPos DecimalZ.
From Stdlib Require Import Floats.SpecFloat.
Import ListNotations.

Local Open Scope Z_scope.
Local Open Scope string_scope.

(** ** The functions of package [strings] and [fmt] that the code calls *)

Module strings.

(** [strings.HasPrefix(s, prefix)] *)
Definition HasPrefix (s prefix : string) : bool := String.prefix prefix s.

(** [strings.HasSuffix(s, suffix)]:
    [len(s) >= len(suffix) && s[len(s)-len(suffix):] == suffix] *)
Definition HasSuffix (s suffix : string) : bool :=
  (String.length suffix <=? String.length s)%nat
  && String.eqb
       (substring (String.length s - String.length suffix)
                  (String.length suffix) s)
       suffix.

(** [strings.TrimSuffix(s, suffix)] *)
Definition TrimSuffix (s suffix : string) : string :=
  if HasSuffix s suffix
  then substring 0 (String.length s - String.length suffix) s
  else s.

(** [strings.Split(s, sep)] for a separator of one byte: the fields
    between consecutive separators, empty fields included; the result
    always has at least one element. *)
Fixpoint Split (s : string) (sep : ascii) : list string :=
  match s with
  | EmptyString => [EmptyString]
  | String c s' =>
      if Ascii.eqb c sep then EmptyString :: Split s' sep
      else match Split s' sep with
           | t :: ts => String c t :: ts
           | [] => [String c EmptyString]
           end
  end.

(** [strings.IndexByte(chars, c) >= 0] *)
Fixpoint ContainsByte (chars : string) (c : ascii) : bool :=
  match chars with
  | EmptyString => false
  | String d chars' => Ascii.eqb c d || ContainsByte chars' c
  end.

(** [strings.ContainsAny(s, chars)] for [chars] in ASCII: some byte of
    [s] is one of the bytes of [chars]. *)
Fixpoint ContainsAny (s chars : string) : bool :=
  match s with
  | EmptyString => false
  | String c s' => ContainsByte chars c || ContainsAny s' chars
  end.

(** [strings.Contains(s, substr)] *)
Fixpoint Contains (s substr : string) : bool :=
  HasPrefix s substr
  || match s with
     | EmptyString => false
     | String _ s' => Contains s' substr
     end.

End strings.

(** The verb [%v] of [fmt] at an integer, and [strconv.FormatInt(_, 10)]. *)
Definition FormatInt (i : Z) : string := NilZero.string_of_int (Z.to_int i).

Definition newline : string := String (ascii_of_nat 10) EmptyString.
Definition space : ascii := ascii_of_nat 32.

(** ** Errors *)

(** [*strconv.NumError] *)
Record NumError : Type := { Func : string; Num : string; Cause : string }.

(** The dynamic types of the [error] values the package handles:
    [errors.New] and [errors.Errorf] build a [fundamental], [errors.Wrapf] a
    [withMessage] around its cause, [CurlNotFoundErr] is the package's own
    struct, and [external] stands for an error made by a collaborator
    ([kube], [scale], the client set). *)
Inductive error : Type :=
| fundamental (msg : string)
| withMessage (cause : error) (msg : string)
| CurlNotFoundErr (Err : error)
| strconvNumError (e : NumError)
| external (msg : string).

Module errors.
Definition New (msg : string) : error := fundamental msg.
Definition Errorf (msg : string) : error := fundamental msg.
Definition Wrapf (err : error) (msg : string) : error := withMessage err msg.
End errors.

(** The method [Error()] of each type. *)
Fixpoint Error (e : error) : string :=
  match e with
  | fundamental msg => msg
  | withMessage cause msg => msg ++ ": " ++ Error cause
  | CurlNotFoundErr err => Error err
  | strconvNumError e =>
      "strconv." ++ Func e ++ ": parsing " ++ Num e ++ ": " ++ Cause e
  | external msg => msg
  end.

(** The type assertion [err.(CurlNotFoundErr)] on an [error] value. *)
Definition isCurlNotFoundErr (err : option error) : bool :=
  match err with
  | Some (CurlNotFoundErr _) => true
  | _ => false
  end.

(** [errors.Cause]: the innermost error below the [Wrapf] layers. *)
Fixpoint errorCause (e : error) : error :=
  match e with
  | withMessage cause _ => errorCause cause
  | _ => e
  end.

(** ** Constants of the package *)

Definition Duration := Z.
Definition Millisecond : Duration := 1000000.
Definition Second : Duration := 1000 * Millisecond.
Definition Minute : Duration := 60 * Second.

Definition underreplicatedmetric : string := "ranges_underreplicated{store=".
Definition curlnotfounderr : string := "/bin/bash: curl: command not found".
Definition sleepBetweenUpdates : Duration := 1 * Minute.

(** [fmt.Sprintf(cmdunderreplicted, podname, stsname, port)] *)
Definition cmdunderreplicted (podname stsname port : string) : string :=
  "curl -ks https://" ++ podname ++ "." ++ stsname ++ ":" ++ port
  ++ "/_status/vars | grep 'ranges_underreplicated{'".

(** ** The world outside the package

    The probe talks to the cluster through [kube.ExecInPod] and waits with
    [time.Sleep].  A [World] carries the wall clock (nanoseconds), the
    number of remote executions made so far and the chronological trace of
    the executions and sleeps, so that what a run did, and in which order, can
    be read off its final world. *)

(** What [kube.ExecInPod] returns: [(output, stderr, err)]. *)
Record ExecResult : Type :=
  { output : string; stderr : string; err : option error }.

Inductive Event : Type :=
| EvExec (namespace podname container : string) (cmd : list string)
| EvSleep (d : Duration).

Record World : Type := { clock : Z; calls : nat; trace : list Event }.

(** State passing over the world. *)
Definition M (A : Type) : Type := World -> A * World.

Definition ret {A : Type} (a : A) : M A := fun w => (a, w).

Definition bind {A B : Type} (m : M A) (k : A -> M B) : M B :=
  fun w => let (a, w') := m w in k a w'.

Notation "x <- c ;; k" := (bind c (fun x => k))
  (at level 61, c at next level, right associativity).
Notation "c ;;; k" := (bind c (fun _ => k))
  (at level 61, right associativity).

(** [time.Now()] *)
Definition Now : M Z := fun w => (clock w, w).

(** [time.Sleep(d)]: returns at once when [d] is not positive. *)
Definition Sleep (d : Duration) : M unit :=
  fun w => (tt, {| clock := clock w + Z.max 0 d;
                   calls := calls w;
                   trace := (trace w ++ [EvSleep d])%list |}).

(** The sleeps of a trace, in order. *)
Fixpoint sleepsOf (evs : list Event) : list Duration :=
  match evs with
  | [] => []
  | EvSleep d :: evs' => d :: sleepsOf evs'
  | EvExec _ _ _ _ :: evs' => sleepsOf evs'
  end.

(** ** The retry policy of package [backoff] *)

Module backoff.

(** Modelled from the spec: the exponential policy of the [backoff] package
    (github.com/cenkalti/backoff, not under src/).  The interval between
    attempts starts at [InitialInterval], grows by [Multiplier] (a fraction)
    after each attempt and is capped at [MaxInterval]; [MaxElapsedTime] is the
    wall-clock budget counted from [startTime].  The spec describes no
    randomisation of the intervals, and none is modelled. *)
Record ExponentialBackOff : Type :=
  { InitialInterval : Duration;
    Multiplier : Z * Z;
    MaxInterval : Duration;
    MaxElapsedTime : Duration;
    currentInterval : Duration;
    startTime : Z }.

(** Modelled from the spec: [backoff.NewExponentialBackOff()] with the
    package's defaults (half a second, factor 1.5, one minute, fifteen
    minutes). *)
Definition NewExponentialBackOff : ExponentialBackOff :=
  {| InitialInterval := 500 * Millisecond;
     Multiplier := (3, 2);
     MaxInterval := 60 * Second;
     MaxElapsedTime := 15 * Minute;
     currentInterval := 500 * Millisecond;
     startTime := 0 |}.

(** The assignments [b.MaxElapsedTime = d] and [b.MaxInterval = d]. *)
Definition setMaxElapsedTime (d : Duration) (b : ExponentialBackOff)
  : ExponentialBackOff :=
  {| InitialInterval := InitialInterval b;
     Multiplier := Multiplier b;
     MaxInterval := MaxInterval b;
     MaxElapsedTime := d;
     currentInterval := currentInterval b;
     startTime := startTime b |}.

Definition setMaxInterval (d : Duration) (b : ExponentialBackOff)
  : ExponentialBackOff :=
  {| InitialInterval := InitialInterval b;
     Multiplier := Multiplier b;
     MaxInterval := d;
     MaxElapsedTime := MaxElapsedTime b;
     currentInterval := currentInterval b;
     startTime := startTime b |}.

(** Modelled from the spec: [Reset] restarts the policy at the first
    invocation: the interval is the initial one and the budget runs from
    now. *)
Definition Reset (b : ExponentialBackOff) (now : Z) : ExponentialBackOff :=
  {| InitialInterval := InitialInterval b;
     Multiplier := Multiplier b;
     MaxInterval := MaxInterval b;
     MaxElapsedTime := MaxElapsedTime b;
     currentInterval := InitialInterval b;
     startTime := now |}.

(** Modelled from the spec: the interval grows multiplicatively up to the
    capped maximum. *)
Definition nextInterval (b : ExponentialBackOff) (cur : Duration) : Duration :=
  let (num, den) := Multiplier b in
  if (MaxInterval b * den <=? cur * num)%Z then MaxInterval b
  else cur * num / den.

(** Modelled from the spec: the policy after an attempt, its interval
    grown. *)
Definition incrementCurrentInterval (b : ExponentialBackOff)
  : ExponentialBackOff :=
  {| InitialInterval := InitialInterval b;
     Multiplier := Multiplier b;
     MaxInterval := MaxInterval b;
     MaxElapsedTime := MaxElapsedTime b;
     currentInterval := nextInterval b (currentInterval b);
     startTime := startTime b |}.

(** Modelled from the spec: [NextBackOff] gives the time to wait before the
    next attempt, or [None] (the package's [Stop]) once the budget is
    exhausted. *)
Definition NextBackOff (b : ExponentialBackOff) (now : Z)
  : option Duration * ExponentialBackOff :=
  if (negb (MaxElapsedTime b =? 0) && (MaxElapsedTime b <? now - startTime b))%Z
  then (None, b)
  else (Some (currentInterval b), incrementCurrentInterval b).

(** Modelled from the spec: the loop of [backoff.Retry]: run the operation;
    return [nil] as soon as it succeeds; otherwise ask the policy, return
    the last error when it says stop, else sleep and try again.  The Go loop
    is unbounded, here [fuel] bounds the number of attempts and [None] is
    returned when it runs out. *)
Fixpoint retryLoop (fuel : nat) (operation : M (option error))
  (b : ExponentialBackOff) : M (option (option error)) :=
  match fuel with
  | O => ret None
  | S fuel' =>
      err <- operation ;;
      match err with
      | None => ret (Some None)
      | Some e =>
          now <- Now ;;
          match NextBackOff b now with
          | (None, _) => ret (Some (Some e))
          | (Some next, b') => Sleep next ;;; retryLoop fuel' operation b'
          end
      end
  end.

(** Modelled from the spec: [backoff.Retry(operation, b)]. *)
Definition Retry (fuel : nat) (operation : M (option error))
  (b : ExponentialBackOff) : M (option (option error)) :=
  now <- Now ;;
  retryLoop fuel operation (Reset b now).


End backoff.

(** ** The health checker *)

Definition float64 := spec_float.
Definition float64_zero : float64 := S754_zero false.

(** [a > b] on [float64]. *)
Definition float64_gt (a b : float64) : bool := SFltb b a.

(** The part of [resource.Cluster] the checker reads. *)
Record Cluster : Type :=
  { StatefulSetName : string; Namespace : string; HTTPPort : Z }.

(** [HealthCheckerImpl]: the client set, scheme and config are handles on the
    collaborators, given below as the functions they stand for. *)
Record HealthCheckerImpl : Type := { cluster : Cluster }.

(** [int32] arithmetic wraps around. *)
Definition int32 (z : Z) : Z := (z + 2 ^ 31) mod 2 ^ 32 - 2 ^ 31.

Section Healthchecker.

(** [strconv.ParseFloat] of the Go library, taken as given. *)
Variable ParseFloat : string -> Z -> float64 + NumError.

(** [kube.ExecInPod]: what the [n]-th remote execution of the run returns,
    and how long it takes (nanoseconds). *)
Variable ExecInPod : nat -> string -> string -> string -> list string -> ExecResult.
Variable ExecLatency : nat -> N.

(** [resource.DbContainerName] *)
Variable DbContainerName : string.

(** The client set's [StatefulSets(ns).Get]: the declared replica count
    [*sts.Spec.Replicas] or an error; [kube.HandleStsError] and
    [scale.WaitUntilStatefulSetIsReadyToServe]. *)
Variable GetStatefulSet : string -> string -> Z + error.
Variable HandleStsError : error -> string -> string -> option error.
Variable WaitUntilStatefulSetIsReadyToServe : string -> string -> Z -> option error.

(** [extractMetric] returns [(int, error)].  The test [out != nil] of the
    source holds of every result of [strings.Split] and is left out. *)
Definition extractMetric (output underepmetric : string) (partition : Z)
  : Z * option error :=
  if String.eqb output EmptyString then
    (-1, Some (errors.Errorf
                 ("non existing ranges_underreplicated metric for partition "
                  ++ FormatInt partition)))
  else if negb (strings.HasPrefix output underepmetric) then
    let msg := "incorrect format of the output: actual='" ++ output
               ++ "' expected to start with=" ++ underepmetric in
    (-1, Some (errors.New msg))
  else
    let out := strings.Split output space in
    if (List.length out <=? 1)%nat then
      (-1, Some (errors.Errorf
                   ("incorrect format of the output: actual='" ++ output
                    ++ "' expected to start with=" ++ underepmetric)))
    else
      let metric := strings.TrimSuffix (nth 1 out EmptyString) newline in
      match ParseFloat metric 1 with
      | inr err => (-1, Some (strconvNumError err))
      | inl i =>
          if float64_gt i float64_zero then
            (-1, Some (errors.Errorf
                         ("under replica is not zero for partition "
                          ++ FormatInt partition)))
          else (0, None)
      end.

(** The call of [kube.ExecInPod], recorded in the trace. *)
Definition execInPod (namespace podname container : string)
  (cmd : list string) : M ExecResult :=
  fun w =>
    (ExecInPod (calls w) namespace podname container cmd,
     {| clock := clock w + Z.of_N (ExecLatency (calls w));
        calls := S (calls w);
        trace := (trace w ++ [EvExec namespace podname container cmd])%list |}).

Definition checkUnderReplicatedMetric (hc : HealthCheckerImpl)
  (logSuffix podname stsname stsnamespace : string) (partition : Z)
  : M (option error) :=
  let port := FormatInt (HTTPPort (cluster hc)) in
  let cmd := ["/bin/bash"; "-c"; cmdunderreplicted podname stsname port] in
  r <- execInPod (Namespace (cluster hc)) podname DbContainerName cmd ;;
  if negb (String.eqb (stderr r) EmptyString) then
    if strings.ContainsAny (stderr r) curlnotfounderr then
      ret (Some (CurlNotFoundErr
                   (errors.Errorf ("exec in pod " ++ podname
                                   ++ " failed with stderror: "
                                   ++ stderr r ++ " "))))
    else
      ret (Some (errors.Errorf ("exec in pod " ++ podname
                                ++ " failed with stderror: "
                                ++ stderr r ++ " ")))
  else
    match err r with
    | Some e =>
        ret (Some (errors.Wrapf e ("health check probe for pod " ++ podname
                                   ++ " failed")))
    | None =>
        let (metric, err) :=
          extractMetric (output r) underreplicatedmetric partition in
        ret err
    end.

(** [fmt.Sprintf("%s-%v", stsname, partition)] *)
Definition podNameOf (stsname : string) (partition : Z) : string :=
  stsname ++ "-" ++ FormatInt partition.

(** The loop of [checkUnderReplicatedMetricAllPods] with [n] iterations
    left: [partition] is [n - 1] and counts down to [0]. *)
Fixpoint sweepLoop (hc : HealthCheckerImpl)
  (logSuffix stsname stsnamespace : string) (n : nat) : M (option error) :=
  match n with
  | O => ret None
  | S p =>
      let partition := Z.of_nat p in
      let podName := podNameOf stsname partition in
      err <- checkUnderReplicatedMetric hc logSuffix podName stsname
                                        stsnamespace partition ;;
      match err with
      | Some e => ret (Some e)
      | None => sweepLoop hc logSuffix stsname stsnamespace p
      end
  end.

Definition checkUnderReplicatedMetricAllPods (hc : HealthCheckerImpl)
  (logSuffix stsname stsnamespace : string) (replicas : Z)
  : M (option error) :=
  sweepLoop hc logSuffix stsname stsnamespace
            (Z.to_nat (int32 (replicas - 1) + 1)).

Definition waitUntilUnderReplicatedMetricIsZero (fuel : nat)
  (hc : HealthCheckerImpl) (logSuffix stsname stsnamespace : string)
  (replicas : Z) : M (option (option error)) :=
  let f := checkUnderReplicatedMetricAllPods hc logSuffix stsname
                                             stsnamespace replicas in
  let b := backoff.NewExponentialBackOff in
  let b := backoff.setMaxElapsedTime (3 * Minute) b in
  let b := backoff.setMaxInterval (10 * Second) b in
  r <- backoff.Retry fuel f b ;;
  match r with
  | None => ret None
  | Some (Some err) =>
      ret (Some (Some (errors.Wrapf
                         err ("replicas check probe failed for cluster "
                              ++ logSuffix))))
  | Some None => ret (Some None)
  end.

(** [Probe]: [None] when the fuel of a poller ran out, else [Some] of the
    returned [error].  After the first pass the source returns a non-nil
    [err] and only then applies the type assertion [err.(CurlNotFoundErr)],
    to an [err] that is [nil]. *)
Definition Probe (fuel : nat) (hc : HealthCheckerImpl) (logSuffix : string)
  (nodeID : Z) : M (option (option error)) :=
  let stsname := StatefulSetName (cluster hc) in
  let stsnamespace := Namespace (cluster hc) in
  match GetStatefulSet stsnamespace stsname with
  | inr err => ret (Some (HandleStsError err stsname stsnamespace))
  | inl replicas =>
      match WaitUntilStatefulSetIsReadyToServe stsnamespace stsname replicas with
      | Some err =>
          ret (Some (Some (errors.Wrapf
                             err ("error rolling update stategy on pod "
                                  ++ FormatInt nodeID))))
      | None =>
          err <- checkUnderReplicatedMetricAllPods hc logSuffix stsname
                                                   stsnamespace replicas ;;
          if isCurlNotFoundErr err then
            Sleep sleepBetweenUpdates ;;;
            ret (Some None)
          else
            r <- waitUntilUnderReplicatedMetricIsZero
                   fuel hc logSuffix stsname stsnamespace replicas ;;
            match r with
            | None => ret None
            | Some (Some err) => ret (Some (Some err))
            | Some None =>
                if isCurlNotFoundErr None then ret (Some None)
                else
                  Sleep (22 * Second) ;;;
                  r <- waitUntilUnderReplicatedMetricIsZero
                         fuel hc logSuffix stsname stsnamespace replicas ;;
                  match r with
                  | None => ret None
                  | Some (Some err) => ret (Some (Some err))
                  | Some None => ret (Some None)
                  end
            end
      end
  end.

End Healthchecker.

(** ** The extraction as the specification words it

    [splitFirstWhitespaceRun] cuts a line at its first run of white space:
    the text before the run and the text after it.  The second definition of
    the extraction differs from [extractMetric] in this step only; it is
    compared with the code below. *)

Definition isSpaceByte (c : ascii) : bool :=
  let n := nat_of_ascii c in
  ((9 <=? n) && (n <=? 13) || (n =? 32))%nat.

Fixpoint dropSpaces (s : string) : string :=
  match s with
  | EmptyString => EmptyString
  | String c s' => if isSpaceByte c then dropSpaces s' else s
  end.

Fixpoint splitFirstWhitespaceRun (s : string) : list string :=
  match s with
  | EmptyString => [EmptyString]
  | String c s' =>
      if isSpaceByte c then [EmptyString; dropSpaces s']
      else match splitFirstWhitespaceRun s' with
           | t :: ts => String c t :: ts
           | [] => [String c EmptyString]
           end
  end.

Definition extractMetric_whitespace_run
  (ParseFloat : string -> Z -> float64 + NumError)
  (output underepmetric : string) (partition : Z) : Z * option error :=
  if String.eqb output EmptyString then
    (-1, Some (errors.Errorf
                 ("non existing ranges_underreplicated metric for partition "
                  ++ FormatInt partition)))
  else if negb (strings.HasPrefix output underepmetric) then
    (-1, Some (errors.New
                 ("incorrect format of the output: actual='" ++ output
                  ++ "' expected to start with=" ++ underepmetric)))
  else
    let out := splitFirstWhitespaceRun output in
    if (List.length out <=? 1)%nat then
      (-1, Some (errors.Errorf
                   ("incorrect format of the output: actual='" ++ output
                    ++ "' expected to start with=" ++ underepmetric)))
    else
      let metric := strings.TrimSuffix (nth 1 out EmptyString) newline in
      match ParseFloat metric 1 with
      | inr err => (-1, Some (strconvNumError err))
      | inl i =>
          if float64_gt i float64_zero then
            (-1, Some (errors.Errorf
                         ("under replica is not zero for partition "
                          ++ FormatInt partition)))
          else (0, None)
      end.

(** ** Concrete collaborators for the examples *)

Definition isDigit (c : ascii) : bool :=
  let n := nat_of_ascii c in ((48 <=? n) && (n <=? 57))%nat.

Fixpoint readDigits (s : string) (acc : Z) (count : nat)
  : Z * nat * string :=
  match s with
  | String c s' =>
      if isDigit c
      then readDigits s' (10 * acc + Z.of_nat (nat_of_ascii c - 48)) (S count)
      else (acc, count, s)
  | EmptyString => (acc, count, s)
  end.

Definition syntaxError (s : string) : NumError :=
  {| Func := "ParseFloat"; Num := s; Cause := "invalid syntax" |}.

(** A parser for short decimal numerals ([-]digits[.digits]), computed the
    way the exact path of [strconv] does: the digits as an integer below
    [2^53], divided by a power of ten of at most [10^22], both exact in
    binary64, with one correctly rounded division.  Anything else is
    reported as a syntax error; it instantiates [ParseFloat] in examples. *)
Definition parseShortDecimal (s : string) (bitSize : Z) : float64 + NumError :=
  let (neg, body) :=
    match s with
    | String c s' => if Ascii.eqb c "-" then (true, s') else (false, s)
    | EmptyString => (false, s)
    end in
  let '(int_part, n_int, rest) := readDigits body 0 0 in
  let '(mant, n_frac, rest') :=
    match rest with
    | String c r => if Ascii.eqb c "." then readDigits r int_part 0
                    else (int_part, O, rest)
    | EmptyString => (int_part, O, rest)
    end in
  if ((n_int + n_frac =? 0)%nat || negb (String.eqb rest' EmptyString)
      || (2 ^ 53 <=? mant)%Z || (22 <? n_frac)%nat)%bool
  then inr (syntaxError s)
  else
    let num := binary_normalize 53 1024 (if neg then - mant else mant) 0 neg in
    let den := binary_normalize 53 1024 (10 ^ Z.of_nat n_frac) 0 false in
    inl (SFdiv 53 1024 num den).

Definition dquote : string := String (ascii_of_nat 34) EmptyString.

(** A metric line as the status endpoint prints it:
    [ranges_underreplicated{store="1"} <value>] and a line feed. *)
Definition metricLine (value : string) : string :=
  underreplicatedmetric ++ dquote ++ "1" ++ dquote ++ "} " ++ value ++ newline.

Definition demoCluster : HealthCheckerImpl :=
  {| cluster := {| StatefulSetName := "crdb";
                   Namespace := "default";
                   HTTPPort := 8080 |} |}.

Definition world0 : World := {| clock := 0; calls := 0; trace := [] |}.

(** Every pod reports zero under-replicated ranges. *)
Definition execHealthy (n : nat) (ns pod container : string)
  (cmd : list string) : ExecResult :=
  {| output := metricLine "0"; stderr := EmptyString; err := None |}.

(** The first [k] executions are healthy, the later ones run on an image
    without curl. *)
Definition execCurlMissingFrom (k n : nat) (ns pod container : string)
  (cmd : list string) : ExecResult :=
  if (n <? k)%nat
  then {| output := metricLine "0"; stderr := EmptyString; err := None |}
  else {| output := EmptyString;
          stderr := curlnotfounderr ++ newline;
          err := Some (external "command terminated with exit code 127") |}.

(** Every execution fails with the given standard error text. *)
Definition execStderr (text : string) (n : nat) (ns pod container : string)
  (cmd : list string) : ExecResult :=
  {| output := EmptyString; stderr := text; err := None |}.

(** Pod [bad] reports [value], the others report zero. *)
Definition execOnePod (bad value : string) (n : nat)
  (ns pod container : string) (cmd : list string) : ExecResult :=
  {| output := metricLine (if String.eqb pod bad then value else "0");
     stderr := EmptyString; err := None |}.

Definition latency1ms (n : nat) : N := 1000000.

Definition getReplicas (replicas : Z) (ns name : string) : Z + error :=
  inl replicas.
Definition handleStsError (e : error) (name ns : string) : option error :=
  Some e.
Definition stsReady (ns name : string) (replicas : Z) : option error := None.

(** The first [k] executions report 3.5 under-replicated ranges, the later
    ones zero. *)
Definition execUnderReplicatedUntil (k n : nat) (ns pod container : string)
  (cmd : list string) : ExecResult :=
  {| output := metricLine (if (n <? k)%nat then "3.5" else "0");
     stderr := EmptyString; err := None |}.

(** The head of a metric line of store [store]:
    [ranges_underreplicated{store="<store>"}]. *)
Definition metricHead (store : string) : string :=
  underreplicatedmetric ++ dquote ++ store ++ dquote ++ "}".

(** [parseShortDecimal], and the spelling [NaN] read as the number of that
    name, as [strconv.ParseFloat] does. *)
Definition parseDecimalOrNaN (s : string) (bitSize : Z) : float64 + NumError :=
  if String.eqb s "NaN" then inl S754_nan else parseShortDecimal s bitSize.

(** ** The errors of the parser, by the names the specification gives them *)

Definition EmptyOutput (partition : Z) : error :=
  fundamental ("non existing ranges_underreplicated metric for partition "
               ++ FormatInt partition).

Definition PrefixMismatch (output underepmetric : string) : error :=
  fundamental ("incorrect format of the output: actual='" ++ output
               ++ "' expected to start with=" ++ underepmetric).

Definition MalformedLine (output underepmetric : string) : error :=
  fundamental ("incorrect format of the output: actual='" ++ output
               ++ "' expected to start with=" ++ underepmetric).

Definition NotConverged (partition : Z) : error :=
  fundamental ("under replica is not zero for partition "
               ++ FormatInt partition).

Definition isNumError (err : option error) : bool :=
  match err with
  | Some (strconvNumError _) => true
  | _ => false
  end.

Definition parseFails {A B : Type} (r : A + B) : bool :=
  match r with
  | inl _ => false
  | inr _ => true
  end.

(** The binary64 number 3.5, that is [7 * 2^50 * 2^-51]. *)
Definition float64_3_5 : float64 := S754_finite false 7881299347898368 (-51).

(** ** Vocabulary for the sweep and the probe *)

(** The trace entry of the remote execution that checks pod [partition]. *)
Definition execEvent (DbContainerName : string) (hc : HealthCheckerImpl)
  (stsname : string) (partition : nat) : Event :=
  let podname := stsname ++ "-" ++ FormatInt (Z.of_nat partition) in
  EvExec (Namespace (cluster hc)) podname DbContainerName
         ["/bin/bash"; "-c";
          cmdunderreplicted podname stsname
                            (FormatInt (HTTPPort (cluster hc)))].

(** A world in which [n] remote executions have been made. *)
Definition worldAfter (n : nat) : World :=
  {| clock := 0; calls := n; trace := [] |}.

(** The world after a sleep of [d]. *)
Definition afterSleep (d : Duration) (w : World) : World :=
  {| clock := clock w + d; calls := calls w;
     trace := (trace w ++ [EvSleep d])%list |}.

(** The policy [waitUntilUnderReplicatedMetricIsZero] configures. *)
Definition probePolicy : backoff.ExponentialBackOff :=
  backoff.setMaxInterval (10 * Second)
    (backoff.setMaxElapsedTime (3 * Minute) backoff.NewExponentialBackOff).


(** * Properties *)

(** ** Strings *)

Lemma length_app (a b : string) :
  String.length (a ++ b) = (String.length a + String.length b)%nat.
Proof.
  induction a as [|c a IH]; simpl; [reflexivity | now rewrite IH].
Qed.

Lemma substring_all (b : string) : substring 0 (String.length b) b = b.
Proof.
  induction b as [|c b IH]; simpl; [reflexivity | now rewrite IH].
Qed.

Lemma substring_tail (a b : string) :
  substring (String.length a) (String.length b) (a ++ b) = b.
Proof.
  induction a as [|c a IH]; simpl; [apply substring_all | exact IH].
Qed.

Lemma substring_head (a b : string) :
  substring 0 (String.length a) (a ++ b) = a.
Proof.
  induction a as [|c a IH]; simpl.
  - now destruct b.
  - now rewrite IH.
Qed.

Lemma TrimSuffix_app (s suffix : string) :
  strings.TrimSuffix (s ++ suffix) suffix = s.
Proof.
  unfold strings.TrimSuffix, strings.HasSuffix.
  rewrite length_app.
  replace (String.length s + String.length suffix - String.length suffix)%nat
    with (String.length s) by lia.
  rewrite substring_tail, String.eqb_refl, substring_head.
  replace (String.length suffix <=? String.length s + String.length suffix)%nat
    with true by (symmetry; apply Nat.leb_le; lia).
  reflexivity.
Qed.

Lemma Split_nonempty (s : string) (sep : ascii) : strings.Split s sep <> [].
Proof.
  destruct s as [|c s]; simpl; [discriminate|].
  destruct (Ascii.eqb c sep); [discriminate|].
  destruct (strings.Split s sep); discriminate.
Qed.

(** A string without the separator is one field. *)
Lemma Split_one_field (s : string) (sep : ascii) :
  strings.ContainsByte s sep = false -> strings.Split s sep = [s].
Proof.
  induction s as [|c s IH]; simpl; intros H; [reflexivity|].
  apply orb_false_iff in H as [Hc Hs].
  rewrite Ascii.eqb_sym, Hc, (IH Hs). reflexivity.
Qed.

(** The first field ends at the first separator. *)
Lemma Split_first_field (a b : string) (sep : ascii) :
  strings.ContainsByte a sep = false ->
  strings.Split (a ++ String sep b) sep = a :: strings.Split b sep.
Proof.
  induction a as [|c a IH]; simpl; intros H.
  - now rewrite Ascii.eqb_refl.
  - apply orb_false_iff in H as [Hc Hs].
    rewrite Ascii.eqb_sym, Hc, (IH Hs). reflexivity.
Qed.

(** A field followed by nothing, or by a separator, is the first one. *)
Lemma Split_head_field (tok rest : string) (sep : ascii) :
  strings.ContainsByte tok sep = false ->
  rest = EmptyString \/ (exists r, rest = String sep r) ->
  exists l, strings.Split (tok ++ rest) sep = tok :: l.
Proof.
  intros Htok [-> | [r ->]].
  - exists []. replace (tok ++ EmptyString) with tok.
    + now apply Split_one_field.
    + clear. induction tok as [|c t IH]; simpl; [reflexivity | now rewrite <- IH].
  - exists (strings.Split r sep). now apply Split_first_field.
Qed.

Lemma Split_two_fields (a tok rest : string) (sep : ascii) :
  strings.ContainsByte a sep = false ->
  strings.ContainsByte tok sep = false ->
  rest = EmptyString \/ (exists r, rest = String sep r) ->
  exists l, strings.Split (a ++ String sep (tok ++ rest)) sep = a :: tok :: l.
Proof.
  intros Ha Htok Hrest.
  destruct (Split_head_field tok rest sep Htok Hrest) as [l Hl].
  exists l. now rewrite Split_first_field, Hl.
Qed.

Lemma append_nonempty (a b : string) (c : ascii) :
  String.eqb (a ++ String c b) EmptyString = false.
Proof. now destruct a. Qed.

Lemma HasPrefix_app (s pre rest : string) :
  strings.HasPrefix s pre = true -> strings.HasPrefix (s ++ rest) pre = true.
Proof.
  unfold strings.HasPrefix. revert s.
  induction pre as [|c pre IH]; intros s H.
  - now destruct (s ++ rest).
  - destruct s as [|d s]; [discriminate|]. simpl in *.
    destruct (ascii_dec c d); [now apply IH | discriminate].
Qed.

Lemma HasPrefix_refl (s : string) : strings.HasPrefix s s = true.
Proof.
  unfold strings.HasPrefix.
  induction s as [|c s IH]; simpl; [reflexivity|].
  destruct (ascii_dec c c); [exact IH | congruence].
Qed.

(** ** Floats *)

(** A number that is zero or negative is not greater than zero. *)
Lemma not_gt_of_le_zero (v : float64) :
  SFleb v float64_zero = true -> float64_gt v float64_zero = false.
Proof.
  unfold float64_gt, float64_zero, SFleb, SFltb.
  destruct v as [s | s | | s m e]; simpl; try reflexivity;
    destruct s; simpl; congruence.
Qed.

(** ** The metric parser *)

(** The empty line and the line with a foreign prefix are told apart by
    their messages. *)
Lemma EmptyOutput_not_PrefixMismatch (output underepmetric : string)
  (partition : Z) :
  EmptyOutput partition <> PrefixMismatch output underepmetric.
Proof. unfold EmptyOutput, PrefixMismatch. simpl. congruence. Qed.

(** What [extractMetric] does once the line has passed the two first
    tests and has a second field. *)
Lemma extractMetric_second_field
  (ParseFloat : string -> Z -> float64 + NumError)
  (output underepmetric a tok : string) (l : list string) (partition : Z) :
  String.eqb output EmptyString = false ->
  strings.HasPrefix output underepmetric = true ->
  strings.Split output space = a :: tok :: l ->
  extractMetric ParseFloat output underepmetric partition =
  match ParseFloat (strings.TrimSuffix tok newline) 1 with
  | inr err => (-1, Some (strconvNumError err))
  | inl i => if float64_gt i float64_zero
             then (-1, Some (NotConverged partition))
             else (0, None)
  end.
Proof.
  intros Hne Hpre Hsplit. unfold extractMetric.
  rewrite Hne, Hpre, Hsplit. reflexivity.
Qed.

(** C5: a line that does not start with the expected prefix is rejected
    with the prefix-mismatch error and no value; the empty line is rejected
    first, with the distinct empty-output error, whatever the prefix. *)
Theorem extractMetric_rejects_foreign_lines :
  forall (ParseFloat : string -> Z -> float64 + NumError)
         (output underepmetric : string) (partition : Z),
    extractMetric ParseFloat EmptyString underepmetric partition
    = (-1, Some (EmptyOutput partition))
    /\ (output <> EmptyString ->
        strings.HasPrefix output underepmetric = false ->
        extractMetric ParseFloat output underepmetric partition
        = (-1, Some (PrefixMismatch output underepmetric)))
    /\ EmptyOutput partition <> PrefixMismatch output underepmetric.
Proof.
  intros P output pre partition. repeat split.
  - intros Hne Hpre. unfold extractMetric.
    destruct (String.eqb_spec output EmptyString) as [-> | _];
      [congruence|].
    now rewrite Hpre.
  - apply EmptyOutput_not_PrefixMismatch.
Qed.

Lemma extractMetric_rejects_foreign_lines_witness :
  extractMetric parseShortDecimal "<html>503</html>" underreplicatedmetric 1
  = (-1, Some (PrefixMismatch "<html>503</html>" underreplicatedmetric)).
Proof.
  apply (proj1 (proj2 (extractMetric_rejects_foreign_lines
                         parseShortDecimal "<html>503</html>"
                         underreplicatedmetric 1)));
    [discriminate | reflexivity].
Defined.

(** C6, as the code has it: a line that passed the prefix test is cut at
    every single space; without a space it is a malformed line; otherwise
    the field between the first space and the next one (or the end), less
    one trailing line feed, goes to the float parser, and the result is the
    parser's error exactly when the parser fails. *)
Theorem extractMetric_parses_second_field :
  forall (ParseFloat : string -> Z -> float64 + NumError)
         (output underepmetric : string) (partition : Z),
    output <> EmptyString ->
    strings.HasPrefix output underepmetric = true ->
    (strings.ContainsByte output space = false ->
     extractMetric ParseFloat output underepmetric partition
     = (-1, Some (MalformedLine output underepmetric)))
    /\ (forall a tok rest : string,
           output = a ++ String space (tok ++ rest) ->
           strings.ContainsByte a space = false ->
           strings.ContainsByte tok space = false ->
           rest = EmptyString \/ (exists r, rest = String space r) ->
           let metric := strings.TrimSuffix tok newline in
           isNumError
             (snd (extractMetric ParseFloat output underepmetric partition))
           = parseFails (ParseFloat metric 1)
           /\ (forall e, ParseFloat metric 1 = inr e ->
                         extractMetric ParseFloat output underepmetric partition
                         = (-1, Some (strconvNumError e)))).
Proof.
  intros P output pre partition Hne Hpre.
  apply String.eqb_neq in Hne. split.
  - intros Hsp. unfold extractMetric.
    rewrite Hne, Hpre, (Split_one_field _ _ Hsp). reflexivity.
  - intros a tok rest Hout Ha Htok Hrest metric.
    destruct (Split_two_fields a tok rest space Ha Htok Hrest) as [l Hl].
    rewrite <- Hout in Hl.
    rewrite (extractMetric_second_field P output pre a tok l partition
               Hne Hpre Hl).
    fold metric. destruct (P metric 1) as [v | e]; simpl.
    + split; [|discriminate].
      now destruct (float64_gt v float64_zero).
    + split; [reflexivity|]. now intros e' [= ->].
Qed.

Lemma extractMetric_parses_second_field_witness :
  extractMetric parseShortDecimal (underreplicatedmetric ++ "x")
                underreplicatedmetric 0
  = (-1, Some (MalformedLine (underreplicatedmetric ++ "x")
                             underreplicatedmetric))
  /\ isNumError (snd (extractMetric parseShortDecimal
                                    (underreplicatedmetric ++ " 1e")
                                    underreplicatedmetric 0))
     = true.
Proof.
  split.
  - apply (proj1 (extractMetric_parses_second_field
                    parseShortDecimal (underreplicatedmetric ++ "x")
                    underreplicatedmetric 0 ltac:(discriminate) eq_refl)).
    reflexivity.
  - apply (proj1 (proj2 (extractMetric_parses_second_field
                           parseShortDecimal
                           (underreplicatedmetric ++ " 1e")
                           underreplicatedmetric 0 ltac:(discriminate)
                           eq_refl)
                    underreplicatedmetric "1e" EmptyString
                    eq_refl eq_refl eq_refl (or_introl eq_refl))).
Defined.

(** C6, as the specification words it, fails: on a line with two spaces
    before the value the code hands the empty second field to the parser
    and fails, where a cut at the first run of white space finds the value
    and converges. *)
Lemma extractMetric_not_whitespace_run :
  extractMetric parseShortDecimal
                (underreplicatedmetric ++ "  0" ++ newline)
                underreplicatedmetric 0
  = (-1, Some (strconvNumError (syntaxError EmptyString)))
  /\ extractMetric_whitespace_run parseShortDecimal
                (underreplicatedmetric ++ "  0" ++ newline)
                underreplicatedmetric 0
     = (0, None).
Proof. split; vm_compute; reflexivity. Qed.

(** C7: on a well-formed line, a head that starts with the prefix, one
    space, the value and a line feed, a parsed value above zero is reported
    as not converged and a value that is zero or negative as converged; so
    the lines with [0] and with [3.5] after the prefix. *)
Theorem extractMetric_convergence :
  forall (ParseFloat : string -> Z -> float64 + NumError)
         (underepmetric head tok : string) (partition : Z) (v : float64),
    strings.HasPrefix head underepmetric = true ->
    strings.ContainsByte head space = false ->
    strings.ContainsByte tok space = false ->
    ParseFloat tok 1 = inl v ->
    let line := head ++ " " ++ tok ++ newline in
    (float64_gt v float64_zero = true ->
     extractMetric ParseFloat line underepmetric partition
     = (-1, Some (NotConverged partition)))
    /\ (SFleb v float64_zero = true ->
        extractMetric ParseFloat line underepmetric partition = (0, None))
    /\ (tok = "0" -> v = float64_zero ->
        extractMetric ParseFloat line underepmetric partition = (0, None))
    /\ (tok = "3.5" -> v = float64_3_5 ->
        extractMetric ParseFloat line underepmetric partition
        = (-1, Some (NotConverged partition))).
Proof.
  intros P pre head tok partition v Hpre Hhead Htok Hparse line.
  assert (Hsplit : strings.Split line space = [head; tok ++ newline]).
  { unfold line. change (" " ++ tok ++ newline)
      with (String space (tok ++ newline)).
    rewrite Split_first_field by assumption.
    rewrite Split_one_field; [reflexivity|].
    clear - Htok. induction tok as [|c t IH]; simpl in *; [reflexivity|].
    apply orb_false_iff in Htok as [Hc Ht]. now rewrite Hc, IH. }
  assert (Hrun : extractMetric P line pre partition
                 = if float64_gt v float64_zero
                   then (-1, Some (NotConverged partition)) else (0, None)).
  { rewrite (extractMetric_second_field P line pre head (tok ++ newline) []
               partition).
    - now rewrite TrimSuffix_app, Hparse.
    - apply append_nonempty.
    - now apply HasPrefix_app.
    - exact Hsplit. }
  rewrite Hrun. repeat split.
  - now intros ->.
  - intros Hle. now rewrite (not_gt_of_le_zero v Hle).
  - now intros _ ->.
  - now intros _ ->.
Qed.

Lemma extractMetric_convergence_witness :
  extractMetric parseShortDecimal
                (underreplicatedmetric ++ " " ++ "0" ++ newline)
                underreplicatedmetric 2 = (0, None)
  /\ extractMetric parseShortDecimal
                (underreplicatedmetric ++ " " ++ "3.5" ++ newline)
                underreplicatedmetric 2 = (-1, Some (NotConverged 2)).
Proof.
  split.
  - apply (extractMetric_convergence
             parseShortDecimal underreplicatedmetric underreplicatedmetric
             "0" 2 float64_zero eq_refl eq_refl eq_refl eq_refl);
      reflexivity.
  - apply (extractMetric_convergence
             parseShortDecimal underreplicatedmetric underreplicatedmetric
             "3.5" 2 float64_3_5 eq_refl eq_refl eq_refl eq_refl);
      reflexivity.
Defined.

(** ** The check of one pod *)

Section CheckerProperties.

Variable ParseFloat : string -> Z -> float64 + NumError.
Variable ExecInPod : nat -> string -> string -> string -> list string -> ExecResult.
Variable ExecLatency : nat -> N.
Variable DbContainerName : string.
Variable hc : HealthCheckerImpl.
Variables logSuffix stsname stsnamespace : string.

Let check := checkUnderReplicatedMetric ParseFloat ExecInPod ExecLatency
                                        DbContainerName hc logSuffix.
Let sweep := checkUnderReplicatedMetricAllPods
               ParseFloat ExecInPod ExecLatency DbContainerName hc logSuffix
               stsname stsnamespace.

(** The result of the remote execution a check makes in world [w]. *)
Let reply (podname : string) (w : World) : ExecResult :=
  ExecInPod (calls w) (Namespace (cluster hc)) podname DbContainerName
            ["/bin/bash"; "-c";
             cmdunderreplicted podname stsname
                               (FormatInt (HTTPPort (cluster hc)))].

Lemma check_world (podname : string) (partition : Z) (w : World) :
  snd (check podname stsname stsnamespace partition w)
  = {| clock := clock w + Z.of_N (ExecLatency (calls w));
       calls := S (calls w);
       trace := (trace w
                 ++ [EvExec (Namespace (cluster hc)) podname DbContainerName
                            ["/bin/bash"; "-c";
                             cmdunderreplicted
                               podname stsname
                               (FormatInt (HTTPPort (cluster hc)))]])%list |}.
Proof.
  unfold check, checkUnderReplicatedMetric, bind, execInPod, ret.
  repeat match goal with
         | |- context [if ?b then _ else _] => destruct b
         | |- context [match ?x with Some _ => _ | None => _ end] => destruct x
         | |- context [let (_, _) := ?x in _] => destruct x
         end; reflexivity.
Qed.

(** The verdict of a check depends on the world through the number of
    the execution only. *)
Lemma check_result_calls (podname : string) (partition : Z) (w w' : World) :
  calls w = calls w' ->
  fst (check podname stsname stsnamespace partition w)
  = fst (check podname stsname stsnamespace partition w').
Proof.
  intros Hc.
  unfold check, checkUnderReplicatedMetric, bind, execInPod, ret.
  rewrite Hc.
  repeat match goal with
         | |- context [if ?b then _ else _] => destruct b
         | |- context [match ?x with Some _ => _ | None => _ end] => destruct x
         | |- context [let (_, _) := ?x in _] => destruct x
         end; reflexivity.
Qed.

(** A non-empty standard error decides the verdict: the tool-missing error
    when it shares a byte with the marker, the plain error otherwise, both
    carrying the text. *)
Lemma check_stderr (podname : string) (partition : Z) (w : World) :
  stderr (reply podname w) <> EmptyString ->
  fst (check podname stsname stsnamespace partition w)
  = Some (let e := fundamental ("exec in pod " ++ podname
                                ++ " failed with stderror: "
                                ++ stderr (reply podname w) ++ " ") in
          if strings.ContainsAny (stderr (reply podname w)) curlnotfounderr
          then CurlNotFoundErr e else e).
Proof.
  intros Hne. apply String.eqb_neq in Hne.
  unfold check, checkUnderReplicatedMetric, bind, execInPod, ret.
  fold (reply podname w). rewrite Hne. simpl.
  now destruct (strings.ContainsAny _ _).
Qed.

Lemma ContainsAny_of_Contains (s sub : string) :
  sub <> EmptyString ->
  strings.Contains s sub = true -> strings.ContainsAny s sub = true.
Proof.
  intros Hsub. destruct sub as [|c sub]; [congruence|]. clear Hsub.
  induction s as [|d s IH]; simpl; [discriminate|].
  unfold strings.HasPrefix. simpl.
  destruct (ascii_dec c d) as [-> | Hcd].
  - intros _. now rewrite Ascii.eqb_refl.
  - simpl. intros H. rewrite (IH H). apply orb_true_r.
Qed.

(** X16, the part of C1 the code keeps: a standard error that contains the
    marker gives the tool-missing error, which carries the text, before
    anything else is looked at. *)
Lemma check_stderr_marker (podname : string) (partition : Z) (w : World) :
  strings.Contains (stderr (reply podname w)) curlnotfounderr = true ->
  fst (check podname stsname stsnamespace partition w)
  = Some (CurlNotFoundErr
            (fundamental ("exec in pod " ++ podname
                          ++ " failed with stderror: "
                          ++ stderr (reply podname w) ++ " "))).
Proof.
  intros H.
  assert (Hany : strings.ContainsAny (stderr (reply podname w))
                                     curlnotfounderr = true)
    by (apply ContainsAny_of_Contains; [discriminate | exact H]).
  rewrite check_stderr.
  - now rewrite Hany.
  - intros E. rewrite E in H. discriminate.
Qed.

(** ** The sweep over the fleet *)

Let outcomeAt (n partition : nat) : option error :=
  fst (check (podNameOf stsname (Z.of_nat partition)) stsname stsnamespace
             (Z.of_nat partition) (worldAfter n)).

Ltac outcome_at a b :=
  match goal with
  | Hw : _ = {| clock := _; calls := _; trace := _ |}
    |- ?f ?x ?y = _ =>
      replace x with a by (try rewrite Hw; simpl; lia);
      replace y with b by lia
  end.

Lemma sweepLoop_spec (n : nat) :
  forall w : World,
    let run := sweepLoop ParseFloat ExecInPod ExecLatency DbContainerName
                         hc logSuffix stsname stsnamespace n w in
    exists m : nat,
      (m <= n)%nat
      /\ trace (snd run)
         = (trace w ++ map (execEvent DbContainerName hc stsname)
                           (rev (seq (n - m) m)))%list
      /\ calls (snd run) = (calls w + m)%nat
      /\ (forall j, (j + 1 < m)%nat ->
                    outcomeAt (calls w + j) (n - 1 - j) = None)
      /\ match fst run with
         | None => m = n
                   /\ forall j, (j < n)%nat ->
                                outcomeAt (calls w + j) (n - 1 - j) = None
         | Some e => (1 <= m)%nat
                     /\ outcomeAt (calls w + (m - 1)) (n - m) = Some e
         end.
Proof.
  induction n as [|p IH]; intros w run.
  - exists O. subst run. simpl. rewrite app_nil_r.
    repeat split; try lia.
  - subst run. simpl. unfold bind.
    fold (check (podNameOf stsname (Z.of_nat p)) stsname stsnamespace
                (Z.of_nat p) w).
    pose proof (check_world (podNameOf stsname (Z.of_nat p)) (Z.of_nat p) w)
      as Hw.
    pose proof (check_result_calls (podNameOf stsname (Z.of_nat p))
                                   (Z.of_nat p) w (worldAfter (calls w))
                                   eq_refl) as Hr.
    fold (outcomeAt (calls w) p) in Hr.
    destruct (check (podNameOf stsname (Z.of_nat p)) stsname stsnamespace
                    (Z.of_nat p) w) as [o w1].
    simpl in Hw, Hr. destruct o as [e|].
    + exists 1%nat. cbn [Nat.sub]. rewrite ?Nat.sub_0_r.
      split; [lia|]. split; [rewrite Hw; reflexivity|].
      split; [rewrite Hw; simpl; lia|].
      split; [intros j Hj; lia|]. split; [lia|].
      outcome_at (calls w) p. now symmetry.
    + destruct (IH w1) as (m & Hm & Ht & Hc & Hbefore & Hlast).
      exists (S m).
      replace (S p - S m)%nat with (p - m)%nat by lia.
      split; [lia|]. split; [|split; [|split]].
      * rewrite seq_S, rev_app_distr.
        replace (p - m + m)%nat with p by lia.
        rewrite Ht, Hw. simpl.
        rewrite <- app_assoc. reflexivity.
      * rewrite Hc, Hw. simpl. lia.
      * intros [|j] Hj.
        -- outcome_at (calls w) p. now symmetry.
        -- outcome_at (calls w1 + j)%nat (p - 1 - j)%nat.
           apply Hbefore. lia.
      * destruct (fst (sweepLoop _ _ _ _ _ _ _ _ p w1)) as [e|].
        -- destruct Hlast as [H1 Hlast]. split; [lia|].
           outcome_at (calls w1 + (m - 1))%nat (p - m)%nat.
           exact Hlast.
        -- destruct Hlast as [-> Hall]. split; [reflexivity|].
           intros [|j] Hj.
           ++ outcome_at (calls w) p. now symmetry.
           ++ outcome_at (calls w1 + j)%nat (p - 1 - j)%nat.
              apply Hall. lia.
Qed.

Lemma int32_pred_succ (n : nat) :
  Z.of_nat n < 2 ^ 31 -> Z.to_nat (int32 (Z.of_nat n - 1) + 1) = n.
Proof.
  intros H. unfold int32.
  replace (Z.of_nat n - 1 + 2 ^ 31) with (Z.of_nat n + (2 ^ 31 - 1)) by lia.
  rewrite Z.mod_small by lia. lia.
Qed.

(** C4: a fleet of [N] replicas is checked from index [N - 1] down; the
    sweep makes [m] checks, those of the indices [N - 1] to [N - m] in this
    order and no other; all but the last of them converge; it returns the
    error of the last one when that one does not converge, without a check
    of a lower index, and it returns [nil] only when all [N] replicas were
    checked and converged. *)
Theorem sweep_highest_first_short_circuit :
  forall (N : nat) (w : World),
    Z.of_nat N < 2 ^ 31 ->
    let run := sweep (Z.of_nat N) w in
    exists m : nat,
      (m <= N)%nat
      /\ trace (snd run)
         = (trace w ++ map (execEvent DbContainerName hc stsname)
                           (rev (seq (N - m) m)))%list
      /\ calls (snd run) = (calls w + m)%nat
      /\ (forall j, (j + 1 < m)%nat ->
                    fst (checkUnderReplicatedMetric
                           ParseFloat ExecInPod ExecLatency DbContainerName
                           hc logSuffix
                           (podNameOf stsname (Z.of_nat (N - 1 - j)))
                           stsname stsnamespace (Z.of_nat (N - 1 - j))
                           (worldAfter (calls w + j))) = None)
      /\ match fst run with
         | None =>
             m = N
             /\ forall j, (j < N)%nat ->
                  fst (checkUnderReplicatedMetric
                         ParseFloat ExecInPod ExecLatency DbContainerName
                         hc logSuffix
                         (podNameOf stsname (Z.of_nat (N - 1 - j)))
                         stsname stsnamespace (Z.of_nat (N - 1 - j))
                         (worldAfter (calls w + j))) = None
         | Some e =>
             (1 <= m)%nat
             /\ fst (checkUnderReplicatedMetric
                       ParseFloat ExecInPod ExecLatency DbContainerName
                       hc logSuffix
                       (podNameOf stsname (Z.of_nat (N - m)))
                       stsname stsnamespace (Z.of_nat (N - m))
                       (worldAfter (calls w + (m - 1)))) = Some e
         end.
Proof.
  intros N w HN run. subst run. unfold sweep, checkUnderReplicatedMetricAllPods.
  rewrite (int32_pred_succ N HN).
  exact (sweepLoop_spec N w).
Qed.

(** A sweep does not sleep and does not turn the clock back. *)
Lemma sleepsOf_app (a b : list Event) :
  sleepsOf (a ++ b) = (sleepsOf a ++ sleepsOf b)%list.
Proof.
  induction a as [|[ns pod c cmd | d] a IH]; simpl; [reflexivity| |];
    now rewrite IH.
Qed.

Lemma sleepsOf_execs (l : list nat) :
  sleepsOf (map (execEvent DbContainerName hc stsname) l) = [].
Proof. induction l as [|i l IH]; simpl; [reflexivity | exact IH]. Qed.

Lemma sweepLoop_clock (n : nat) :
  forall w : World,
    clock w <= clock (snd (sweepLoop ParseFloat ExecInPod ExecLatency
                                     DbContainerName hc logSuffix stsname
                                     stsnamespace n w)).
Proof.
  induction n as [|p IH]; intros w; simpl; [lia|].
  unfold bind.
  fold (check (podNameOf stsname (Z.of_nat p)) stsname stsnamespace
              (Z.of_nat p) w).
  pose proof (check_world (podNameOf stsname (Z.of_nat p)) (Z.of_nat p) w)
    as Hw.
  destruct (check (podNameOf stsname (Z.of_nat p)) stsname stsnamespace
                  (Z.of_nat p) w) as [o w1].
  simpl in Hw.
  assert (Hc : clock w <= clock w1) by (rewrite Hw; simpl; lia).
  destruct o as [e|]; simpl; [exact Hc|].
  specialize (IH w1). lia.
Qed.

Lemma sweep_clock (replicas : Z) (w : World) :
  clock w <= clock (snd (sweep replicas w)).
Proof. apply sweepLoop_clock. Qed.


End CheckerProperties.

(** ** The retry loop *)

Section RetryProperties.

Variable operation : M (option error).
Hypothesis op_clock : forall w, clock w <= clock (snd (operation w)).
Hypothesis op_no_sleep :
  forall w, exists evs,
    trace (snd (operation w)) = (trace w ++ evs)%list /\ sleepsOf evs = [].





End RetryProperties.

Lemma retryLoop_result (operation : M (option error)) (fuel : nat) :
  forall (b : backoff.ExponentialBackOff) (w w' : World) (r : option error),
    backoff.retryLoop fuel operation b w = (Some r, w') ->
    exists wl, operation wl = (r, w').
Proof.
  induction fuel as [|f IH]; intros b w w' r; simpl; [discriminate|].
  unfold bind. destruct (operation w) as [o w1] eqn:Hop.
  destruct o as [e|].
  - unfold Now. destruct (backoff.NextBackOff b (clock w1)) as [[d|] b'].
    + unfold Sleep. apply IH.
    + unfold ret. intros [= <- <-]. now exists w.
  - unfold ret. intros [= <- <-]. now exists w.
Qed.

(** ** The poller and the probe *)



Lemma Sleep_positive (d : Duration) (w : World) :
  0 <= d -> Sleep d w = (tt, afterSleep d w).
Proof.
  intros H. unfold Sleep, afterSleep. now rewrite Z.max_r.
Qed.

Section ProbeProperties.

Variable ParseFloat : string -> Z -> float64 + NumError.
Variable ExecInPod : nat -> string -> string -> string -> list string -> ExecResult.
Variable ExecLatency : nat -> N.
Variable DbContainerName : string.
Variable GetStatefulSet : string -> string -> Z + error.
Variable HandleStsError : error -> string -> string -> option error.
Variable WaitUntilStatefulSetIsReadyToServe : string -> string -> Z -> option error.
Variable hc : HealthCheckerImpl.
Variable logSuffix : string.

Let stsname := StatefulSetName (cluster hc).
Let stsnamespace := Namespace (cluster hc).
Let sweep := checkUnderReplicatedMetricAllPods
               ParseFloat ExecInPod ExecLatency DbContainerName hc logSuffix
               stsname stsnamespace.
Let wait (fuel : nat) :=
  waitUntilUnderReplicatedMetricIsZero
    ParseFloat ExecInPod ExecLatency DbContainerName fuel hc logSuffix
    stsname stsnamespace.
Let probe :=
  Probe ParseFloat ExecInPod ExecLatency DbContainerName GetStatefulSet
        HandleStsError WaitUntilStatefulSetIsReadyToServe.

(** The poller is the retry loop started now, under [probePolicy], with
    the error wrapped. *)
Lemma wait_unfold (fuel : nat) (replicas : Z) (w : World) :
  wait fuel replicas w
  = let (r, w') := backoff.retryLoop fuel (sweep replicas)
                     (backoff.Reset probePolicy (clock w)) w in
    (match r with
     | Some (Some e) =>
         Some (Some (errors.Wrapf
                       e ("replicas check probe failed for cluster "
                          ++ logSuffix)))
     | _ => r
     end, w').
Proof.
  unfold wait, waitUntilUnderReplicatedMetricIsZero, backoff.Retry, bind, Now.
  fold (sweep replicas). fold probePolicy.
  destruct (backoff.retryLoop _ _ _ _) as [[[e|]|] w']; reflexivity.
Qed.

(** Whatever the fuel, a verdict of the poller comes from the sweep it ran
    last, and a failure is the error of that sweep, wrapped. *)
Lemma wait_result (fuel : nat) (replicas : Z) (w w' : World)
  (r : option error) :
  wait fuel replicas w = (Some r, w') ->
  exists wl,
    match r with
    | None => sweep replicas wl = (None, w')
    | Some e =>
        exists e0, sweep replicas wl = (Some e0, w')
                   /\ e = errors.Wrapf
                            e0 ("replicas check probe failed for cluster "
                                ++ logSuffix)
    end.
Proof.
  rewrite wait_unfold.
  destruct (backoff.retryLoop _ _ _ _) as [r0 w0] eqn:Hloop.
  destruct r0 as [[e0|]|]; intros [= <- <-].
  - destruct (retryLoop_result _ _ _ _ _ _ Hloop) as [wl Hwl].
    exists wl, e0. now split.
  - destruct (retryLoop_result _ _ _ _ _ _ Hloop) as [wl Hwl].
    now exists wl.
Qed.

(** [Probe] after the replica set was found and is ready. *)
Lemma Probe_unfold (fuel : nat) (nodeID replicas : Z) (w : World) :
  GetStatefulSet stsnamespace stsname = inl replicas ->
  WaitUntilStatefulSetIsReadyToServe stsnamespace stsname replicas = None ->
  probe fuel hc logSuffix nodeID w
  = let (e0, w1) := sweep replicas w in
    if isCurlNotFoundErr e0
    then (Some None, afterSleep sleepBetweenUpdates w1)
    else let (r1, w2) := wait fuel replicas w1 in
         match r1 with
         | Some None => wait fuel replicas (afterSleep (22 * Second) w2)
         | _ => (r1, w2)
         end.
Proof.
  intros Hget Hready. unfold probe, Probe.
  fold stsname stsnamespace. rewrite Hget, Hready.
  unfold bind. fold (sweep replicas).
  destruct (sweep replicas w) as [e0 w1].
  destruct (isCurlNotFoundErr e0).
  - rewrite Sleep_positive by discriminate. reflexivity.
  - fold (wait fuel replicas).
    destruct (wait fuel replicas w1) as [[[e1|]|] w2]; try reflexivity.
    change (isCurlNotFoundErr None) with false. cbv beta iota.
    rewrite Sleep_positive by discriminate.
    destruct (wait fuel replicas (afterSleep (22 * Second) w2))
      as [[[e2|]|] w4]; reflexivity.
Qed.

(** X17: an error of the first pass of the poller is returned as it is, the
    tool-missing error like any other: the type assertion that follows the
    first pass in [Probe] is reached with [nil] only. *)
Lemma Probe_first_pass_failure_returned (fuel : nat) (nodeID replicas : Z)
  (w w1 w2 : World) (e0 : option error) (e1 : error) :
  GetStatefulSet stsnamespace stsname = inl replicas ->
  WaitUntilStatefulSetIsReadyToServe stsnamespace stsname replicas = None ->
  sweep replicas w = (e0, w1) ->
  isCurlNotFoundErr e0 = false ->
  wait fuel replicas w1 = (Some (Some e1), w2) ->
  probe fuel hc logSuffix nodeID w = (Some (Some e1), w2).
Proof.
  intros Hget Hready Hsweep Hnot Hfirst.
  now rewrite (Probe_unfold fuel nodeID replicas w Hget Hready), Hsweep, Hnot,
    Hfirst.
Qed.


(** C3: when the pre-check sweep reports the tool-missing error, the probe
    sleeps the fallback delay of one minute and returns [nil]; nothing else
    happens after the pre-check, whatever the fuel: no remote execution, no
    other sleep. *)
Theorem Probe_tool_missing_fallback :
  forall (fuel : nat) (nodeID replicas : Z) (w w1 : World) (c : error),
    GetStatefulSet stsnamespace stsname = inl replicas ->
    WaitUntilStatefulSetIsReadyToServe stsnamespace stsname replicas = None ->
    sweep replicas w = (Some (CurlNotFoundErr c), w1) ->
    exists w' : World,
      probe fuel hc logSuffix nodeID w = (Some None, w')
      /\ trace w' = (trace w1 ++ [EvSleep sleepBetweenUpdates])%list
      /\ sleepBetweenUpdates = 60 * Second
      /\ calls w' = calls w1
      /\ clock w' = clock w1 + sleepBetweenUpdates.
Proof.
  intros fuel nodeID replicas w w1 c Hget Hready Hsweep.
  exists (afterSleep sleepBetweenUpdates w1).
  rewrite (Probe_unfold fuel nodeID replicas w Hget Hready), Hsweep.
  simpl isCurlNotFoundErr. cbv iota.
  repeat split; reflexivity.
Qed.

(** C9: when the first convergence check succeeds, the probe sleeps 22
    seconds and what remains is one pass of the poller: the probe returns
    what that pass returns, its error when it fails and [nil] when it
    succeeds. *)
Theorem Probe_second_pass :
  forall (fuel : nat) (nodeID replicas : Z) (w w1 w2 : World)
         (e0 : option error),
    GetStatefulSet stsnamespace stsname = inl replicas ->
    WaitUntilStatefulSetIsReadyToServe stsnamespace stsname replicas = None ->
    sweep replicas w = (e0, w1) ->
    isCurlNotFoundErr e0 = false ->
    wait fuel replicas w1 = (Some None, w2) ->
    let w3 := {| clock := clock w2 + 22 * Second;
                 calls := calls w2;
                 trace := (trace w2 ++ [EvSleep (22 * Second)])%list |} in
    probe fuel hc logSuffix nodeID w = wait fuel replicas w3
    /\ (forall (e : error) (w4 : World),
           wait fuel replicas w3 = (Some (Some e), w4) ->
           probe fuel hc logSuffix nodeID w = (Some (Some e), w4))
    /\ (forall w4 : World,
           wait fuel replicas w3 = (Some None, w4) ->
           probe fuel hc logSuffix nodeID w = (Some None, w4)).
Proof.
  intros fuel nodeID replicas w w1 w2 e0 Hget Hready Hsweep Hnot Hfirst w3.
  assert (Hrun : probe fuel hc logSuffix nodeID w = wait fuel replicas w3).
  { rewrite (Probe_unfold fuel nodeID replicas w Hget Hready), Hsweep, Hnot,
      Hfirst. reflexivity. }
  rewrite Hrun. repeat split; auto.
Qed.

(** C10: an error of the pre-check sweep other than the tool-missing one is
    dropped: the probe goes on to the first pass of the poller from the
    world the pre-check left, and what it returns is decided from there, the
    error of that pass when it fails, the settle delay and the second pass
    when it succeeds; the dropped error appears nowhere. *)
Theorem Probe_precheck_error_discarded :
  forall (fuel : nat) (nodeID replicas : Z) (w w1 : World) (e : error),
    GetStatefulSet stsnamespace stsname = inl replicas ->
    WaitUntilStatefulSetIsReadyToServe stsnamespace stsname replicas = None ->
    sweep replicas w = (Some e, w1) ->
    isCurlNotFoundErr (Some e) = false ->
    probe fuel hc logSuffix nodeID w
    = (let (r1, w2) := wait fuel replicas w1 in
       match r1 with
       | Some None => wait fuel replicas (afterSleep (22 * Second) w2)
       | _ => (r1, w2)
       end)
    /\ (forall (e1 : error) (w2 : World),
           wait fuel replicas w1 = (Some (Some e1), w2) ->
           probe fuel hc logSuffix nodeID w = (Some (Some e1), w2))
    /\ (forall w2 : World,
           wait fuel replicas w1 = (Some None, w2) ->
           probe fuel hc logSuffix nodeID w
           = wait fuel replicas (afterSleep (22 * Second) w2)).
Proof.
  intros fuel nodeID replicas w w1 e Hget Hready Hsweep Hnot.
  rewrite (Probe_unfold fuel nodeID replicas w Hget Hready), Hsweep, Hnot.
  repeat split.
  - intros e1 w2 ->. reflexivity.
  - intros w2 ->. reflexivity.
Qed.

(** C2, as the code has it: the tool-missing error of the pre-check is
    recovered, the probe returns [nil]; an error that makes the second pass
    of the poller fail is returned to the caller as the poller wrapped it,
    the tool-missing error like any other. *)
Theorem Probe_tool_missing_recovered_only_at_precheck :
  forall (fuel : nat) (nodeID replicas : Z) (w : World),
    GetStatefulSet stsnamespace stsname = inl replicas ->
    WaitUntilStatefulSetIsReadyToServe stsnamespace stsname replicas = None ->
    (forall (c : error) (w1 : World),
        sweep replicas w = (Some (CurlNotFoundErr c), w1) ->
        fst (probe fuel hc logSuffix nodeID w) = Some None)
    /\ (forall (e0 : option error) (w1 w2 w4 : World) (e : error),
           sweep replicas w = (e0, w1) ->
           isCurlNotFoundErr e0 = false ->
           wait fuel replicas w1 = (Some None, w2) ->
           wait fuel replicas (afterSleep (22 * Second) w2)
           = (Some (Some e), w4) ->
           probe fuel hc logSuffix nodeID w = (Some (Some e), w4)
           /\ exists (wl : World) (e' : error),
               sweep replicas wl = (Some e', w4)
               /\ e = errors.Wrapf
                        e' ("replicas check probe failed for cluster "
                            ++ logSuffix)).
Proof.
  intros fuel nodeID replicas w Hget Hready.
  rewrite (Probe_unfold fuel nodeID replicas w Hget Hready). split.
  - intros c w1 ->. reflexivity.
  - intros e0 w1 w2 w4 e -> -> -> Hsecond. split; [exact Hsecond|].
    destruct (wait_result _ _ _ _ _ Hsecond) as (wl & e' & Hl & He).
    now exists wl, e'.
Qed.

End ProbeProperties.

(** ** The properties at concrete runs *)

(** C1 fails on the code: [strings.ContainsAny] looks for any byte of the
    marker, not for the marker.  The standard error text below does not
    contain the marker, and still the check returns the tool-missing error
    where the plain error was due. *)
Theorem check_tool_missing_without_marker :
  strings.Contains "error: pod not ready" curlnotfounderr = false
  /\ fst (checkUnderReplicatedMetric
            parseShortDecimal (execStderr "error: pod not ready") latency1ms
            "db" demoCluster "sfx" "crdb-0" "crdb" "default" 0 world0)
     = Some (CurlNotFoundErr
               (fundamental
                  "exec in pod crdb-0 failed with stderror: error: pod not ready ")).
Proof. split; vm_compute; reflexivity. Qed.

(** Three replicas, of which pod [crdb-1] is under-replicated: the sweep
    checks [crdb-2], then [crdb-1], and stops there. *)
Lemma sweep_highest_first_short_circuit_witness :
  exists m : nat,
    (m <= 3)%nat
    /\ calls (snd (checkUnderReplicatedMetricAllPods
                     parseShortDecimal (execOnePod "crdb-1" "3.5") latency1ms
                     "db" demoCluster "sfx" "crdb" "default"
                     (Z.of_nat 3) world0))
       = (calls world0 + m)%nat.
Proof.
  destruct (sweep_highest_first_short_circuit
              parseShortDecimal (execOnePod "crdb-1" "3.5") latency1ms
              "db" demoCluster "sfx" "crdb" "default" 3%nat world0 eq_refl)
    as (m & Hm & _ & Hcalls & _).
  exists m. split; [exact Hm | exact Hcalls].
Defined.


(** The image has no curl from the start: one minute of sleep, then [nil]. *)
Lemma Probe_tool_missing_fallback_witness :
  exists w' : World,
    Probe parseShortDecimal (execCurlMissingFrom 0) latency1ms "db"
          (getReplicas 1) handleStsError stsReady 0 demoCluster "sfx" 0 world0
    = (Some None, w')
    /\ calls w' = 1%nat.
Proof.
  edestruct (Probe_tool_missing_fallback
               parseShortDecimal (execCurlMissingFrom 0) latency1ms "db"
               (getReplicas 1) handleStsError stsReady demoCluster "sfx"
               0%nat 0 1 world0)
    as (w' & Hrun & _ & _ & Hcalls & _).
  - reflexivity.
  - reflexivity.
  - vm_compute. reflexivity.
  - exists w'. split; [exact Hrun | rewrite Hcalls; reflexivity].
Defined.

(** Three healthy replicas: the probe is the second pass after the sleep. *)
Lemma Probe_second_pass_witness :
  exists w2 : World,
    Probe parseShortDecimal execHealthy latency1ms "db" (getReplicas 3)
          handleStsError stsReady 400 demoCluster "sfx" 2 world0
    = waitUntilUnderReplicatedMetricIsZero
        parseShortDecimal execHealthy latency1ms "db" 400 demoCluster "sfx"
        "crdb" "default" 3
        {| clock := clock w2 + 22 * Second;
           calls := calls w2;
           trace := (trace w2 ++ [EvSleep (22 * Second)])%list |}.
Proof.
  eexists.
  refine (proj1 (Probe_second_pass
                   parseShortDecimal execHealthy latency1ms "db"
                   (getReplicas 3) handleStsError stsReady demoCluster "sfx"
                   400%nat 2 3 world0 _ _ _ eq_refl eq_refl _ _ _)).
  - vm_compute. reflexivity.
  - reflexivity.
  - vm_compute. reflexivity.
Defined.

(** The pre-check finds pod [crdb-0] under-replicated, the later sweeps
    find it healthy: the probe passes on the two passes of the poller. *)
Lemma Probe_precheck_error_discarded_witness :
  exists w2 : World,
    Probe parseShortDecimal (execUnderReplicatedUntil 1) latency1ms "db"
          (getReplicas 1) handleStsError stsReady 400 demoCluster "sfx" 0
          world0
    = waitUntilUnderReplicatedMetricIsZero
        parseShortDecimal (execUnderReplicatedUntil 1) latency1ms "db" 400
        demoCluster "sfx" "crdb" "default" 1 (afterSleep (22 * Second) w2).
Proof.
  eexists.
  refine (proj2 (proj2 (Probe_precheck_error_discarded
                          parseShortDecimal (execUnderReplicatedUntil 1)
                          latency1ms "db" (getReplicas 1) handleStsError
                          stsReady demoCluster "sfx" 400%nat 0 1 world0 _ _
                          eq_refl eq_refl _ _)) _ _).
  - vm_compute. reflexivity.
  - reflexivity.
  - vm_compute. reflexivity.
Defined.

(** The image has no curl from the start: the probe returns [nil]. *)
Lemma Probe_tool_missing_recovered_only_at_precheck_witness :
  fst (Probe parseShortDecimal (execCurlMissingFrom 0) latency1ms "db"
             (getReplicas 1) handleStsError stsReady 400 demoCluster "sfx" 0
             world0)
  = Some None.
Proof.
  eapply (proj1 (Probe_tool_missing_recovered_only_at_precheck
                   parseShortDecimal (execCurlMissingFrom 0) latency1ms "db"
                   (getReplicas 1) handleStsError stsReady demoCluster "sfx"
                   400%nat 0 1 world0 eq_refl eq_refl)).
  vm_compute. reflexivity.
Defined.

(** C2, as the specification words it, fails: curl disappears after the
    first pass of the poller (the pre-check and the first pass each see a
    healthy pod); the second pass exhausts its budget on the tool-missing
    error and the probe returns that error, wrapped, to its caller. *)
Lemma Probe_surfaces_tool_missing :
  exists (e c : error),
    fst (Probe parseShortDecimal (execCurlMissingFrom 2) latency1ms "db"
               (getReplicas 1) handleStsError stsReady 400 demoCluster "sfx"
               0 world0)
    = Some (Some e)
    /\ errorCause e = CurlNotFoundErr c.
Proof. do 2 eexists. vm_compute. split; reflexivity. Qed.

(** * Further properties of the package *)

(** ** The metric parser *)

Lemma ContainsByte_app (a b : string) (c : ascii) :
  strings.ContainsByte (a ++ b) c
  = strings.ContainsByte a c || strings.ContainsByte b c.
Proof.
  induction a as [|d a IH]; simpl; [reflexivity|].
  now rewrite IH, orb_assoc.
Qed.

(** X1: [extractMetric] returns either the value [0] with no error or the
    value [-1] with an error, never anything else. *)
Theorem extractMetric_value_tells_error :
  forall (ParseFloat : string -> Z -> float64 + NumError)
         (output underepmetric : string) (partition : Z),
    extractMetric ParseFloat output underepmetric partition = (0, None)
    \/ exists e : error,
         extractMetric ParseFloat output underepmetric partition
         = (-1, Some e).
Proof.
  intros P output pre partition. unfold extractMetric.
  destruct (String.eqb output EmptyString); [right; eauto|].
  destruct (strings.HasPrefix output pre); simpl; [|right; eauto].
  destruct (List.length (strings.Split output space) <=? 1)%nat;
    [right; eauto|].
  destruct (P _ 1) as [v | e]; [|right; eauto].
  destruct (float64_gt v float64_zero); [right; eauto | now left].
Qed.

(** X2: the partition index is used in the error messages only: whether a
    line converges does not depend on it, so the store label of the line is
    never compared with the partition. *)
Theorem extractMetric_partition_in_messages_only :
  forall (ParseFloat : string -> Z -> float64 + NumError)
         (output underepmetric : string) (partition partition' : Z),
    fst (extractMetric ParseFloat output underepmetric partition)
    = fst (extractMetric ParseFloat output underepmetric partition')
    /\ (snd (extractMetric ParseFloat output underepmetric partition) = None
        <-> snd (extractMetric ParseFloat output underepmetric partition')
            = None).
Proof.
  intros P output pre p p'. unfold extractMetric.
  destruct (String.eqb output EmptyString); [simpl; intuition discriminate|].
  destruct (strings.HasPrefix output pre); simpl;
    [|intuition discriminate].
  destruct (List.length (strings.Split output space) <=? 1)%nat;
    [simpl; intuition discriminate|].
  destruct (P _ 1) as [v | e]; [|simpl; intuition discriminate].
  destruct (float64_gt v float64_zero); simpl; intuition discriminate.
Qed.

(** X3: only the first two fields of a line count: what follows the second
    space has no effect on the result. *)
Theorem extractMetric_ignores_later_fields :
  forall (ParseFloat : string -> Z -> float64 + NumError)
         (underepmetric head tok rest rest' : string) (partition : Z),
    strings.HasPrefix head underepmetric = true ->
    strings.ContainsByte head space = false ->
    strings.ContainsByte tok space = false ->
    extractMetric ParseFloat
                  (head ++ String space (tok ++ String space rest))
                  underepmetric partition
    = extractMetric ParseFloat
                    (head ++ String space (tok ++ String space rest'))
                    underepmetric partition.
Proof.
  intros P pre head tok rest rest' partition Hpre Hhead Htok.
  destruct (Split_two_fields head tok (String space rest) space Hhead Htok)
    as [l Hl]; [right; eauto|].
  destruct (Split_two_fields head tok (String space rest') space Hhead Htok)
    as [l' Hl']; [right; eauto|].
  rewrite (extractMetric_second_field P _ pre head tok l partition
             (append_nonempty _ _ _) (HasPrefix_app _ _ _ Hpre) Hl).
  rewrite (extractMetric_second_field P _ pre head tok l' partition
             (append_nonempty _ _ _) (HasPrefix_app _ _ _ Hpre) Hl').
  reflexivity.
Qed.

Lemma extractMetric_ignores_later_fields_witness :
  extractMetric parseShortDecimal
                (underreplicatedmetric
                 ++ String space ("0" ++ String space "ignored"))
                underreplicatedmetric 0
  = extractMetric parseShortDecimal
                  (underreplicatedmetric
                   ++ String space ("0" ++ String space "7"))
                  underreplicatedmetric 0.
Proof.
  apply (extractMetric_ignores_later_fields
           parseShortDecimal underreplicatedmetric underreplicatedmetric
           "0" "ignored" "7" 0 eq_refl eq_refl eq_refl).
Defined.

(** X4: an output of two metric lines is not read line by line: the field
    handed to the float parser is the value of the first line, the line
    feed and the head of the second line, in one piece. *)
Theorem extractMetric_two_lines_one_field :
  forall (ParseFloat : string -> Z -> float64 + NumError)
         (underepmetric head1 value1 head2 rest : string) (partition : Z),
    strings.HasPrefix head1 underepmetric = true ->
    strings.ContainsByte head1 space = false ->
    strings.ContainsByte value1 space = false ->
    strings.ContainsByte head2 space = false ->
    strings.HasSuffix (value1 ++ newline ++ head2) newline = false ->
    extractMetric ParseFloat
                  (head1 ++ String space
                     ((value1 ++ newline ++ head2) ++ String space rest))
                  underepmetric partition
    = match ParseFloat (value1 ++ newline ++ head2) 1 with
      | inr err => (-1, Some (strconvNumError err))
      | inl i => if float64_gt i float64_zero
                 then (-1, Some (NotConverged partition))
                 else (0, None)
      end.
Proof.
  intros P pre head1 value1 head2 rest partition Hpre Hh1 Hv1 Hh2 Hsuffix.
  assert (Htok : strings.ContainsByte (value1 ++ newline ++ head2) space
                 = false).
  { rewrite !ContainsByte_app, Hv1, Hh2. reflexivity. }
  destruct (Split_two_fields head1 (value1 ++ newline ++ head2)
              (String space rest) space Hh1 Htok) as [l Hl];
    [right; eauto|].
  rewrite (extractMetric_second_field P _ pre head1 _ l partition
             (append_nonempty _ _ _) (HasPrefix_app _ _ _ Hpre) Hl).
  unfold strings.TrimSuffix. rewrite Hsuffix. reflexivity.
Qed.

(** Two stores, both at zero: the extraction fails on the joined field. *)
Lemma extractMetric_two_lines_one_field_witness :
  exists e : NumError,
    extractMetric parseShortDecimal
                  (metricHead "1"
                   ++ String space
                        (("0" ++ newline ++ metricHead "2")
                         ++ String space ("0" ++ newline)))
                  underreplicatedmetric 0
    = (-1, Some (strconvNumError e)).
Proof.
  eexists.
  rewrite (extractMetric_two_lines_one_field
             parseShortDecimal underreplicatedmetric (metricHead "1")
             "0" (metricHead "2") ("0" ++ newline) 0
             eq_refl eq_refl eq_refl eq_refl eq_refl).
  reflexivity.
Defined.

(** ** The check of one pod and the sweep *)

Lemma append_cancel_l (a b c : string) : a ++ b = a ++ c -> b = c.
Proof.
  induction a as [|d a IH]; simpl; [trivial|].
  intros [= H]. now apply IH.
Qed.

Lemma FormatInt_inj (a b : Z) : FormatInt a = FormatInt b -> a = b.
Proof.
  unfold FormatInt. intros H.
  apply DecimalZ.to_int_inj.
  assert (Hnz : forall z, Z.to_int z <> Decimal.Pos Decimal.Nil
                          /\ Z.to_int z <> Decimal.Neg Decimal.Nil).
  { intros [|p|p]; simpl; split; try discriminate;
      intros [= E]; now apply (DecimalPos.Unsigned.to_uint_nonnil p). }
  assert (Some (Z.to_int a) = Some (Z.to_int b)) as [= E]; [|exact E].
  rewrite <- (NilZero.isi (Z.to_int a)) by apply Hnz.
  rewrite <- (NilZero.isi (Z.to_int b)) by apply Hnz.
  now rewrite H.
Qed.

(** X5: pods of different partitions have different names, so that one
    sweep never runs its command on the same pod twice. *)
Theorem podNameOf_injective :
  forall (stsname : string) (partition partition' : Z),
    podNameOf stsname partition = podNameOf stsname partition' ->
    partition = partition'.
Proof.
  intros stsname a b H. unfold podNameOf in H.
  apply append_cancel_l in H. apply (append_cancel_l "-") in H.
  now apply FormatInt_inj.
Qed.

Lemma podNameOf_injective_witness :
  podNameOf "crdb" 2 = podNameOf "crdb" (1 + 1) /\ 2 = 1 + 1.
Proof.
  split; [reflexivity|].
  apply (podNameOf_injective "crdb" 2 (1 + 1)). reflexivity.
Defined.

Section FurtherCheckerProperties.

Variable ParseFloat : string -> Z -> float64 + NumError.
Variable ExecInPod : nat -> string -> string -> string -> list string -> ExecResult.
Variable ExecLatency : nat -> N.
Variable DbContainerName : string.
Variable hc : HealthCheckerImpl.
Variables logSuffix stsname stsnamespace : string.

Let check := checkUnderReplicatedMetric ParseFloat ExecInPod ExecLatency
                                        DbContainerName hc logSuffix.
Let sweep := checkUnderReplicatedMetricAllPods
               ParseFloat ExecInPod ExecLatency DbContainerName hc logSuffix
               stsname stsnamespace.
Let reply (podname : string) (w : World) : ExecResult :=
  ExecInPod (calls w) (Namespace (cluster hc)) podname DbContainerName
            ["/bin/bash"; "-c";
             cmdunderreplicted podname stsname
                               (FormatInt (HTTPPort (cluster hc)))].

(** X6: a non-empty standard error decides the check alone, whatever the
    standard output and the error of the transport: the check fails, the
    text of the error names the pod and quotes the standard error, the same
    text for the tool-missing error and for the plain one, and the error is
    the tool-missing one exactly when the standard error holds a byte of
    the marker. *)
Theorem check_stderr_error_text :
  forall (podname : string) (partition : Z) (w : World),
    stderr (reply podname w) <> EmptyString ->
    exists e : error,
      fst (check podname stsname stsnamespace partition w) = Some e
      /\ Error e = "exec in pod " ++ podname ++ " failed with stderror: "
                   ++ stderr (reply podname w) ++ " "
      /\ isCurlNotFoundErr (Some e)
         = strings.ContainsAny (stderr (reply podname w)) curlnotfounderr.
Proof.
  intros podname partition w Hne.
  pose proof (check_stderr ParseFloat ExecInPod ExecLatency DbContainerName
                hc logSuffix stsname stsnamespace podname partition w Hne)
    as H.
  fold check in H. fold (reply podname w) in H. rewrite H.
  eexists. split; [reflexivity|].
  destruct (strings.ContainsAny _ _); split; reflexivity.
Qed.

(** X7: the check of a pod returns [nil] only when the standard error is
    empty, the transport reported no error, the standard output starts with
    the metric prefix and its second field, less one trailing line feed,
    parses to a number that is not above zero. *)
Theorem check_nil_only_on_zero_metric :
  forall (podname : string) (partition : Z) (w : World),
    fst (check podname stsname stsnamespace partition w) = None ->
    stderr (reply podname w) = EmptyString
    /\ err (reply podname w) = None
    /\ strings.HasPrefix (output (reply podname w)) underreplicatedmetric
       = true
    /\ exists v : float64,
         ParseFloat
           (strings.TrimSuffix
              (nth 1 (strings.Split (output (reply podname w)) space)
                   EmptyString)
              newline) 1 = inl v
         /\ float64_gt v float64_zero = false.
Proof.
  intros podname partition w.
  unfold check, checkUnderReplicatedMetric, bind, execInPod, ret.
  fold (reply podname w).
  destruct (String.eqb_spec (stderr (reply podname w)) EmptyString)
    as [Herr | Herr]; simpl.
  2: { destruct (strings.ContainsAny _ _); discriminate. }
  destruct (err (reply podname w)) as [e|]; [discriminate|].
  unfold extractMetric.
  destruct (String.eqb (output (reply podname w)) EmptyString);
    [discriminate|].
  destruct (strings.HasPrefix (output (reply podname w))
                              underreplicatedmetric); simpl;
    [|discriminate].
  destruct (List.length (strings.Split (output (reply podname w)) space)
            <=? 1)%nat; [discriminate|].
  destruct (ParseFloat _ 1) as [v | e]; [|discriminate].
  destruct (float64_gt v float64_zero) eqn:Hgt; [discriminate|].
  intros _. repeat split; auto. now exists v.
Qed.

(** X8: a replica count of zero (or below) makes the sweep return [nil]
    at once: no pod is checked and the world is left as it was. *)
Theorem sweep_empty_fleet :
  forall (replicas : Z) (w : World),
    - 2 ^ 31 < replicas <= 0 ->
    sweep replicas w = (None, w).
Proof.
  intros replicas w H. unfold sweep, checkUnderReplicatedMetricAllPods.
  replace (Z.to_nat (int32 (replicas - 1) + 1)) with O; [reflexivity|].
  unfold int32.
  replace (replicas - 1 + 2 ^ 31) with (replicas + (2 ^ 31 - 1)) by lia.
  rewrite Z.mod_small by lia. lia.
Qed.

End FurtherCheckerProperties.

Lemma check_stderr_error_text_witness :
  exists e : error,
    fst (checkUnderReplicatedMetric
           parseShortDecimal (execStderr "Unable to connect") latency1ms
           "db" demoCluster "sfx" "crdb-0" "crdb" "default" 0 world0)
    = Some e
    /\ Error e
       = "exec in pod crdb-0 failed with stderror: Unable to connect ".
Proof.
  destruct (check_stderr_error_text
              parseShortDecimal (execStderr "Unable to connect") latency1ms
              "db" demoCluster "sfx" "crdb" "default" "crdb-0" 0 world0
              ltac:(discriminate)) as (e & He & Htext & _).
  exists e. split; [exact He | exact Htext].
Defined.

Lemma check_nil_only_on_zero_metric_witness :
  stderr (execHealthy 0 "default" "crdb-0" "db"
            ["/bin/bash"; "-c";
             cmdunderreplicted "crdb-0" "crdb" (FormatInt 8080)])
  = EmptyString.
Proof.
  apply (check_nil_only_on_zero_metric
           parseShortDecimal execHealthy latency1ms "db" demoCluster "sfx"
           "crdb" "default" "crdb-0" 0 world0).
  reflexivity.
Defined.

Lemma sweep_empty_fleet_witness :
  checkUnderReplicatedMetricAllPods
    parseShortDecimal execHealthy latency1ms "db" demoCluster "sfx" "crdb"
    "default" 0 world0
  = (None, world0).
Proof.
  apply (sweep_empty_fleet parseShortDecimal execHealthy latency1ms "db"
                           demoCluster "sfx" "crdb" "default" 0 world0).
  split; reflexivity.
Defined.

(** The standard error of bash on an image without curl. *)
Lemma check_stderr_marker_witness :
  fst (checkUnderReplicatedMetric
         parseShortDecimal (execCurlMissingFrom 0) latency1ms "db"
         demoCluster "sfx" "crdb-0" "crdb" "default" 0 world0)
  = Some (CurlNotFoundErr
            (fundamental ("exec in pod crdb-0 failed with stderror: "
                          ++ (curlnotfounderr ++ newline) ++ " "))).
Proof.
  apply (check_stderr_marker
           parseShortDecimal (execCurlMissingFrom 0) latency1ms "db"
           demoCluster "sfx" "crdb" "default" "crdb-0" 0 world0).
  reflexivity.
Defined.

(** ** The poller and the probe *)

Lemma retryLoop_clock (operation : M (option error)) :
  (forall w, clock w <= clock (snd (operation w))) ->
  forall (fuel : nat) (b : backoff.ExponentialBackOff) (w : World),
    clock w <= clock (snd (backoff.retryLoop fuel operation b w)).
Proof.
  intros Hop fuel. induction fuel as [|f IH]; intros b w; simpl; [lia|].
  unfold bind. pose proof (Hop w) as Hw.
  destruct (operation w) as [[e|] w1]; simpl in Hw; [|exact Hw].
  unfold Now. destruct (backoff.NextBackOff b (clock w1)) as [[d|] b'];
    [|exact Hw].
  unfold Sleep.
  match goal with
  | |- _ <= clock (snd (backoff.retryLoop f operation b' ?w2)) =>
      specialize (IH b' w2); simpl in IH
  end.
  lia.
Qed.

Section FurtherProbeProperties.

Variable ParseFloat : string -> Z -> float64 + NumError.
Variable ExecInPod : nat -> string -> string -> string -> list string -> ExecResult.
Variable ExecLatency : nat -> N.
Variable DbContainerName : string.
Variable GetStatefulSet : string -> string -> Z + error.
Variable HandleStsError : error -> string -> string -> option error.
Variable WaitUntilStatefulSetIsReadyToServe : string -> string -> Z -> option error.
Variable hc : HealthCheckerImpl.
Variable logSuffix : string.

Local Abbreviation stsname := (StatefulSetName (cluster hc)).
Local Abbreviation stsnamespace := (Namespace (cluster hc)).
Local Abbreviation check :=
  (checkUnderReplicatedMetric ParseFloat ExecInPod ExecLatency
                              DbContainerName hc logSuffix).
Local Abbreviation sweep :=
  (checkUnderReplicatedMetricAllPods
     ParseFloat ExecInPod ExecLatency DbContainerName hc logSuffix
     stsname stsnamespace).
Local Abbreviation wait fuel :=
  (waitUntilUnderReplicatedMetricIsZero
     ParseFloat ExecInPod ExecLatency DbContainerName fuel hc logSuffix
     stsname stsnamespace).
Local Abbreviation probe :=
  (Probe ParseFloat ExecInPod ExecLatency DbContainerName GetStatefulSet
         HandleStsError WaitUntilStatefulSetIsReadyToServe).
Local Abbreviation wrapped e :=
  (errors.Wrapf e ("replicas check probe failed for cluster " ++ logSuffix)).

Lemma wait_clock (fuel : nat) (replicas : Z) (w : World) :
  clock w <= clock (snd (wait fuel replicas w)).
Proof.
  rewrite wait_unfold.
  pose proof (retryLoop_clock (sweep replicas)
                (sweep_clock _ _ _ _ _ _ _ _ replicas) fuel
                (backoff.Reset probePolicy (clock w)) w) as H.
  destruct (backoff.retryLoop _ _ _ _) as [r w']. exact H.
Qed.

(** A first sweep that converges ends the pass. *)
Lemma wait_first_converged (fuel : nat) (replicas : Z) (w w1 : World) :
  sweep replicas w = (None, w1) ->
  wait (S fuel) replicas w = (Some None, w1).
Proof.
  intros H. rewrite wait_unfold. simpl. unfold bind. now rewrite H.
Qed.


(** When every check converges, so does the sweep, after one check per
    replica. *)
Lemma sweep_all_converge (N : nat) (w : World) :
  Z.of_nat N < 2 ^ 31 ->
  (forall n i : nat,
      fst (check (podNameOf stsname (Z.of_nat i)) stsname stsnamespace
                 (Z.of_nat i) (worldAfter n)) = None) ->
  exists (w' : World) (evs : list Event),
    sweep (Z.of_nat N) w = (None, w')
    /\ calls w' = (calls w + N)%nat
    /\ trace w' = (trace w ++ evs)%list
    /\ sleepsOf evs = [].
Proof.
  intros HN Hall.
  unfold checkUnderReplicatedMetricAllPods.
  rewrite (int32_pred_succ N HN).
  destruct (sweepLoop_spec ParseFloat ExecInPod ExecLatency DbContainerName
              hc logSuffix stsname stsnamespace N w)
    as (m & Hm & Ht & Hc & _ & Hlast).
  destruct (sweepLoop _ _ _ _ _ _ _ _ N w) as [r w'].
  simpl in Ht, Hc, Hlast. destruct r as [e|].
  - destruct Hlast as [_ He]. rewrite Hall in He. discriminate.
  - destruct Hlast as [-> _]. exists w'. eexists.
    repeat split; [exact Hc | exact Ht | apply sleepsOf_execs].
Qed.

(** X9: with no replica declared the probe makes no remote execution: the
    three sweeps are empty, and it returns [nil] after the settle delay of
    22 seconds alone. *)
Theorem Probe_empty_fleet :
  forall (fuel : nat) (nodeID replicas : Z) (w : World),
    GetStatefulSet stsnamespace stsname = inl replicas ->
    WaitUntilStatefulSetIsReadyToServe stsnamespace stsname replicas = None ->
    - 2 ^ 31 < replicas <= 0 ->
    (1 <= fuel)%nat ->
    probe fuel hc logSuffix nodeID w
    = (Some None, afterSleep (22 * Second) w).
Proof.
  intros fuel nodeID replicas w Hget Hready Hrange Hfuel.
  destruct fuel as [|f]; [lia|].
  pose proof (sweep_empty_fleet ParseFloat ExecInPod ExecLatency
                DbContainerName hc logSuffix stsname stsnamespace replicas)
    as Hempty.
  rewrite (Probe_unfold _ _ _ _ _ _ _ _ _ (S f) nodeID replicas w Hget Hready).
  rewrite (Hempty w Hrange). simpl isCurlNotFoundErr. cbv iota.
  rewrite (wait_first_converged f replicas w w (Hempty w Hrange)).
  apply wait_first_converged, Hempty, Hrange.
Qed.

(** X10: on a fleet of [N] replicas whose checks all converge the probe
    returns [nil] after three sweeps, the pre-check and the two passes of
    the poller, that is [3 * N] remote executions, and one sleep, the
    settle delay of 22 seconds. *)
Theorem Probe_healthy_fleet :
  forall (N fuel : nat) (nodeID : Z) (w : World),
    GetStatefulSet stsnamespace stsname = inl (Z.of_nat N) ->
    WaitUntilStatefulSetIsReadyToServe stsnamespace stsname (Z.of_nat N)
    = None ->
    Z.of_nat N < 2 ^ 31 ->
    (1 <= fuel)%nat ->
    (forall n i : nat,
        fst (check (podNameOf stsname (Z.of_nat i)) stsname stsnamespace
                   (Z.of_nat i) (worldAfter n)) = None) ->
    exists (w' : World) (evs : list Event),
      probe fuel hc logSuffix nodeID w = (Some None, w')
      /\ calls w' = (calls w + 3 * N)%nat
      /\ trace w' = (trace w ++ evs)%list
      /\ sleepsOf evs = [22 * Second].
Proof.
  intros N fuel nodeID w Hget Hready HN Hfuel Hall.
  destruct fuel as [|f]; [lia|].
  destruct (sweep_all_converge N w HN Hall)
    as (w1 & evs1 & Hs1 & Hc1 & Ht1 & Hn1).
  destruct (sweep_all_converge N w1 HN Hall)
    as (w2 & evs2 & Hs2 & Hc2 & Ht2 & Hn2).
  destruct (sweep_all_converge N (afterSleep (22 * Second) w2) HN Hall)
    as (w4 & evs4 & Hs4 & Hc4 & Ht4 & Hn4).
  exists w4, (evs1 ++ evs2 ++ [EvSleep (22 * Second)] ++ evs4)%list.
  split.
  - rewrite (Probe_unfold _ _ _ _ _ _ _ _ _ (S f) nodeID (Z.of_nat N) w
               Hget Hready).
    rewrite Hs1. simpl isCurlNotFoundErr. cbv iota.
    rewrite (wait_first_converged f _ _ _ Hs2).
    apply wait_first_converged, Hs4.
  - split; [rewrite Hc4; simpl; lia|]. split.
    + rewrite Ht4. simpl. rewrite Ht2, Ht1, <- !app_assoc. reflexivity.
    + rewrite !sleepsOf_app, Hn1, Hn2, Hn4. reflexivity.
Qed.

(** X11: the probe returns [nil] in two ways only: after the fallback
    sleep that follows a tool-missing pre-check, or right after a sweep in
    which every replica converged. *)
Theorem Probe_nil_after_fallback_or_converged_sweep :
  forall (fuel : nat) (nodeID replicas : Z) (w w' : World),
    GetStatefulSet stsnamespace stsname = inl replicas ->
    WaitUntilStatefulSetIsReadyToServe stsnamespace stsname replicas = None ->
    probe fuel hc logSuffix nodeID w = (Some None, w') ->
    (exists (c : error) (w1 : World),
        sweep replicas w = (Some (CurlNotFoundErr c), w1)
        /\ w' = afterSleep sleepBetweenUpdates w1)
    \/ (exists wl : World, sweep replicas wl = (None, w')).
Proof.
  intros fuel nodeID replicas w w' Hget Hready.
  rewrite (Probe_unfold _ _ _ _ _ _ _ _ _ fuel nodeID replicas w Hget Hready).
  destruct (sweep replicas w) as [e0 w1].
  destruct (isCurlNotFoundErr e0) eqn:Hcurl.
  - intros [= <-]. left.
    destruct e0 as [[ | | c | | ]|]; try discriminate. now exists c, w1.
  - destruct (wait fuel replicas w1) as [[[e1|]|] w2] eqn:Hfirst;
      try discriminate.
    intros Hsecond. right.
    exact (wait_result _ _ _ _ _ _ _ _ _ _ _ Hsecond).
Qed.

(** X12: an error the probe returns after the pre-check is the error of
    the last sweep of a pass of the poller, wrapped with the cluster's log
    suffix; its text is the poller's message, a colon and the text of that
    error; and its type is never the tool-missing one. *)
Theorem Probe_failure_is_wrapped_sweep_error :
  forall (fuel : nat) (nodeID replicas : Z) (w w' : World) (e : error),
    GetStatefulSet stsnamespace stsname = inl replicas ->
    WaitUntilStatefulSetIsReadyToServe stsnamespace stsname replicas = None ->
    probe fuel hc logSuffix nodeID w = (Some (Some e), w') ->
    exists (wl : World) (e0 : error),
      sweep replicas wl = (Some e0, w')
      /\ e = wrapped e0
      /\ Error e = ("replicas check probe failed for cluster " ++ logSuffix)
                   ++ ": " ++ Error e0
      /\ isCurlNotFoundErr (Some e) = false.
Proof.
  intros fuel nodeID replicas w w' e Hget Hready.
  rewrite (Probe_unfold _ _ _ _ _ _ _ _ _ fuel nodeID replicas w Hget Hready).
  destruct (sweep replicas w) as [e0 w1].
  destruct (isCurlNotFoundErr e0); [discriminate|].
  destruct (wait fuel replicas w1) as [[[e1|]|] w2] eqn:Hfirst;
    try discriminate; intros Hrun.
  - injection Hrun as <- <-.
    destruct (wait_result _ _ _ _ _ _ _ _ _ _ _ Hfirst)
      as (wl & e' & Hl & ->).
    exists wl, e'. repeat split; assumption.
  - destruct (wait_result _ _ _ _ _ _ _ _ _ _ _ Hrun)
      as (wl & e' & Hl & ->).
    exists wl, e'. repeat split; assumption.
Qed.

(** X13: the probe never returns [nil] in less than 22 seconds: it has
    slept the fallback minute or the settle delay. *)
Theorem Probe_nil_takes_22_seconds :
  forall (fuel : nat) (nodeID replicas : Z) (w w' : World),
    GetStatefulSet stsnamespace stsname = inl replicas ->
    WaitUntilStatefulSetIsReadyToServe stsnamespace stsname replicas = None ->
    probe fuel hc logSuffix nodeID w = (Some None, w') ->
    22 * Second <= clock w' - clock w.
Proof.
  intros fuel nodeID replicas w w' Hget Hready.
  rewrite (Probe_unfold _ _ _ _ _ _ _ _ _ fuel nodeID replicas w Hget Hready).
  pose proof (sweep_clock ParseFloat ExecInPod ExecLatency DbContainerName
                hc logSuffix stsname stsnamespace replicas w) as H1.
  destruct (sweep replicas w) as [e0 w1]. simpl in H1.
  change (22 * Second) with 22000000000.
  destruct (isCurlNotFoundErr e0).
  - intros [= <-]. unfold afterSleep. simpl.
    change sleepBetweenUpdates with 60000000000. lia.
  - pose proof (wait_clock fuel replicas w1) as H2.
    destruct (wait fuel replicas w1) as [[[e1|]|] w2]; try discriminate.
    simpl in H2. intros Hsecond.
    pose proof (wait_clock fuel replicas (afterSleep 22000000000 w2)) as H3.
    change (22 * Second) with 22000000000 in Hsecond.
    rewrite Hsecond in H3. simpl in H3. lia.
Qed.


End FurtherProbeProperties.

(** ** The further properties at concrete runs *)

Lemma Probe_empty_fleet_witness :
  Probe parseShortDecimal execHealthy latency1ms "db" (getReplicas 0)
        handleStsError stsReady 1 demoCluster "sfx" 0 world0
  = (Some None, afterSleep (22 * Second) world0).
Proof.
  apply (Probe_empty_fleet
           parseShortDecimal execHealthy latency1ms "db" (getReplicas 0)
           handleStsError stsReady demoCluster "sfx" 1%nat 0 0 world0
           eq_refl eq_refl); lia.
Defined.

Lemma Probe_healthy_fleet_witness :
  exists w' : World,
    Probe parseShortDecimal execHealthy latency1ms "db" (getReplicas 3)
          handleStsError stsReady 1 demoCluster "sfx" 2 world0
    = (Some None, w')
    /\ calls w' = 9%nat.
Proof.
  destruct (Probe_healthy_fleet
              parseShortDecimal execHealthy latency1ms "db" (getReplicas 3)
              handleStsError stsReady demoCluster "sfx" 3%nat 1%nat 2 world0
              eq_refl eq_refl eq_refl ltac:(lia)
              ltac:(intros n i; vm_compute; reflexivity))
    as (w' & evs & Hrun & Hcalls & _).
  exists w'. split; [exact Hrun | exact Hcalls].
Defined.

Lemma Probe_nil_after_fallback_or_converged_sweep_witness :
  (exists (c : error) (w1 : World),
      checkUnderReplicatedMetricAllPods
        parseShortDecimal execHealthy latency1ms "db" demoCluster "sfx"
        "crdb" "default" 3 world0 = (Some (CurlNotFoundErr c), w1)
      /\ snd (Probe parseShortDecimal execHealthy latency1ms "db"
                    (getReplicas 3) handleStsError stsReady 1 demoCluster
                    "sfx" 2 world0)
         = afterSleep sleepBetweenUpdates w1)
  \/ (exists wl : World,
         checkUnderReplicatedMetricAllPods
           parseShortDecimal execHealthy latency1ms "db" demoCluster "sfx"
           "crdb" "default" 3 wl
         = (None,
            snd (Probe parseShortDecimal execHealthy latency1ms "db"
                       (getReplicas 3) handleStsError stsReady 1 demoCluster
                       "sfx" 2 world0))).
Proof.
  apply (Probe_nil_after_fallback_or_converged_sweep
           parseShortDecimal execHealthy latency1ms "db" (getReplicas 3)
           handleStsError stsReady demoCluster "sfx" 1%nat 2 3 world0 _
           eq_refl eq_refl).
  vm_compute. reflexivity.
Defined.

(** Pod [crdb-1] stays under-replicated: the probe fails with the poller's
    message around the error of the sweep. *)
Lemma Probe_failure_is_wrapped_sweep_error_witness :
  exists e e0 : error,
    fst (Probe parseShortDecimal (execOnePod "crdb-1" "3.5") latency1ms "db"
               (getReplicas 3) handleStsError stsReady 400 demoCluster "sfx"
               1 world0)
    = Some (Some e)
    /\ Error e = ("replicas check probe failed for cluster " ++ "sfx")
                 ++ ": " ++ Error e0.
Proof.
  edestruct (Probe_failure_is_wrapped_sweep_error
               parseShortDecimal (execOnePod "crdb-1" "3.5") latency1ms "db"
               (getReplicas 3) handleStsError stsReady demoCluster "sfx"
               400%nat 1 3 world0)
    as (wl & e0 & _ & _ & Htext & _).
  - reflexivity.
  - reflexivity.
  - vm_compute. reflexivity.
  - eexists. exists e0. split; [|exact Htext].
    vm_compute. reflexivity.
Defined.

Lemma Probe_nil_takes_22_seconds_witness :
  22 * Second
  <= clock (snd (Probe parseShortDecimal execHealthy latency1ms "db"
                       (getReplicas 3) handleStsError stsReady 1 demoCluster
                       "sfx" 2 world0))
     - clock world0.
Proof.
  apply (Probe_nil_takes_22_seconds
           parseShortDecimal execHealthy latency1ms "db" (getReplicas 3)
           handleStsError stsReady demoCluster "sfx" 1%nat 2 3 world0 _
           eq_refl eq_refl).
  vm_compute. reflexivity.
Defined.


Lemma Probe_first_pass_failure_returned_witness :
  exists (e1 : error) (w2 : World),
    Probe parseShortDecimal (execOnePod "crdb-1" "3.5") latency1ms "db"
          (getReplicas 3) handleStsError stsReady 400 demoCluster "sfx" 1
          world0
    = (Some (Some e1), w2).
Proof.
  do 2 eexists.
  eapply (Probe_first_pass_failure_returned
            parseShortDecimal (execOnePod "crdb-1" "3.5") latency1ms "db"
            (getReplicas 3) handleStsError stsReady demoCluster "sfx"
            400%nat 1 3 world0).
  - reflexivity.
  - reflexivity.
  - vm_compute. reflexivity.
  - reflexivity.
  - vm_compute. reflexivity.
Defined.

(** ** Values that are not numbers *)

(** X15: a value that parses to NaN is not above zero, so that the line
    counts as converged. *)
Theorem extractMetric_nan_converges :
  forall (ParseFloat : string -> Z -> float64 + NumError)
         (underepmetric head tok : string) (partition : Z),
    strings.HasPrefix head underepmetric = true ->
    strings.ContainsByte head space = false ->
    strings.ContainsByte tok space = false ->
    ParseFloat tok 1 = inl S754_nan ->
    extractMetric ParseFloat (head ++ String space (tok ++ newline))
                  underepmetric partition
    = (0, None).
Proof.
  intros P pre head tok partition Hpre Hhead Htok Hnan.
  assert (Hfield : strings.ContainsByte (tok ++ newline) space = false)
    by (rewrite ContainsByte_app, Htok; reflexivity).
  destruct (Split_two_fields head (tok ++ newline) EmptyString space
              Hhead Hfield (or_introl eq_refl)) as [l Hl].
  replace ((tok ++ newline) ++ EmptyString) with (tok ++ newline) in Hl
    by (clear; induction (tok ++ newline) as [|c t IH]; simpl;
        [reflexivity | now rewrite <- IH]).
  rewrite (extractMetric_second_field P _ pre head (tok ++ newline) l
             partition (append_nonempty _ _ _) (HasPrefix_app _ _ _ Hpre) Hl).
  now rewrite TrimSuffix_app, Hnan.
Qed.

Lemma extractMetric_nan_converges_witness :
  extractMetric parseDecimalOrNaN
                (metricHead "1" ++ String space ("NaN" ++ newline))
                underreplicatedmetric 1
  = (0, None).
Proof.
  apply (extractMetric_nan_converges
           parseDecimalOrNaN underreplicatedmetric (metricHead "1") "NaN" 1
           eq_refl eq_refl eq_refl eq_refl).
Defined.
